(** * SWAGAtranslate: the Telegram slang-translation bot of [src/bot.py]

    A shallow embedding of the bot's handlers and of the wrapper around the
    generation service, followed by the properties of the conversation state
    machine.

    Conventions of the embedding.
    - A Python [str] is the list of its Unicode code points ([pystr]);
      literals of the source are written as UTF-8 text and decoded by [py].
    - A Python [dict] used as a map is a [gmap]; [ACTIVE_MODES], whose
      insertion order lays out the buttons, is an association list.
    - The handlers are coroutines that mutate [context.user_data], call the
      chat transport, the logger and the generation service.  They are
      functions in the monad [M]: state passing over a [World] that holds the
      module global [gemini_client], the per-user dictionaries and the
      sequence of outward calls made so far ([trace]); a result is either a
      value or a raised Python exception.
    - The generation service is outside the program: it is a parameter
      [generate_content], which may answer with a response object, with
      [None], or by raising.  The calls on the chat transport are recorded in
      the trace and are taken to return normally. *)

From Stdlib Require Import String Ascii NArith ZArith List Bool Lia.
From stdpp Require Import base option gmap list.
Import ListNotations.

Local Open Scope N_scope.

(** ** Python strings *)

Definition pystr : Type := list N.

(** Decoding of a UTF-8 byte sequence into code points; only used to write
    the string literals of the source. *)
Fixpoint utf8_decode (bs : list N) : list N :=
  match bs with
  | [] => []
  | b0 :: r0 =>
    if b0 <? 128 then b0 :: utf8_decode r0
    else if b0 <? 224 then
      match r0 with
      | b1 :: r1 => ((b0 - 192) * 64 + (b1 - 128)) :: utf8_decode r1
      | _ => []
      end
    else if b0 <? 240 then
      match r0 with
      | b1 :: b2 :: r2 =>
          ((b0 - 224) * 4096 + (b1 - 128) * 64 + (b2 - 128)) :: utf8_decode r2
      | _ => []
      end
    else
      match r0 with
      | b1 :: b2 :: b3 :: r3 =>
          ((b0 - 240) * 262144 + (b1 - 128) * 4096 + (b2 - 128) * 64 + (b3 - 128))
            :: utf8_decode r3
      | _ => []
      end
  end.

Definition py (s : string) : pystr :=
  utf8_decode (map N_of_ascii (list_ascii_of_string s)).
Arguments py : simpl never.

(** The characters the literals below cannot hold: line feed and the
    double quote. *)
Definition LF : pystr := [10].
Definition DQUOTE : pystr := [34].

(** [bool(s)] for a [str], and for a value that is a [str] or [None]. *)
Definition truthy (s : pystr) : bool :=
  match s with [] => false | _ :: _ => true end.

Definition truthy_opt (o : option pystr) : bool :=
  match o with None => false | Some s => truthy s end.

(** [str.isspace] on one code point: the characters [str.strip()] removes. *)
Definition isspace (c : N) : bool :=
  ((9 <=? c) && (c <=? 13)) || ((28 <=? c) && (c <=? 32))
  || (c =? 133) || (c =? 160) || (c =? 5760)
  || ((8192 <=? c) && (c <=? 8202))
  || (c =? 8232) || (c =? 8233) || (c =? 8239) || (c =? 8287) || (c =? 12288).

Fixpoint lstrip (s : pystr) : pystr :=
  match s with
  | [] => []
  | c :: r => if isspace c then lstrip r else s
  end.

Definition rstrip (s : pystr) : pystr := rev (lstrip (rev s)).

(** [s.strip()] *)
Definition strip (s : pystr) : pystr := rstrip (lstrip s).

(** ** The mode registry *)

Record ModeInfo := {
  button_text : pystr;
  gemini_prompt : pystr
}.

Definition SELECTED_GEMINI_MODEL : pystr := py "gemini-2.0-flash".

Definition ACTIVE_MODES : list (pystr * ModeInfo) :=
  [ (py "slang_to_standard_russian",
     {| button_text := py "Сленг 🧢 → Понятно 🧐";
        gemini_prompt := py "Твоя задача — объяснить этот текст, написанный на современном русскоязычном молодежном сленге, простым, ясным и общепонятным литературным русским языком. Главное — сделать смысл доступным для человека, не знакомого со сленгом. Сохрани исходную мысль и эмоциональный окрас. Текст должен звучать естественно и грамотно." |});
    (py "standard_russian_to_slang",
     {| button_text := py "Понятно 🧐 → Сленг 🧢";
        gemini_prompt := py "Твоя задача — перевести этот текст, написанный на стандартном русском языке, на современный молодежный сленг (для аудитории 16-25 лет). Сделай текст максимально неформальным, живым, добавь характерные словечки и обороты. Важно точно передать смысл в сленговой манере." |}) ].

(** [d.get(key)] on an insertion-ordered dictionary. *)
Fixpoint dict_get {V : Type} (key : pystr) (d : list (pystr * V)) : option V :=
  match d with
  | [] => None
  | (k, v) :: rest => if decide (k = key) then Some v else dict_get key rest
  end.

(** [key in d] *)
Definition dict_contains {V : Type} (key : pystr) (d : list (pystr * V)) : bool :=
  match dict_get key d with Some _ => true | None => false end.

(** ** The prompt (the f-string of [translate_text_with_gemini]) *)

Definition PROMPT_ROLE : pystr :=
  py "Ты — ИИ-помощник, специализирующийся на переводе между современным русским молодежным сленгом и общепонятным литературным русским языком.".

Definition PROMPT_RULES : pystr :=
  py "Важно:" ++ LF
  ++ py "- Сохраняй основной смысл исходного текста." ++ LF
  ++ py "- Адаптируй лексику, грамматику и тональность под целевой стиль." ++ LF
  ++ py "- Выдавай **только** переведенный текст, без каких-либо своих вступлений, извинений, объяснений твоего процесса или комментариев.".

Definition PROMPT_SOURCE_HEADER : pystr := py "Исходный текст для перевода:".

Definition PROMPT_CUE : pystr := py "Результат (только переведенный текст):".

Definition build_prompt (specific_task_description text_to_translate : pystr) : pystr :=
  PROMPT_ROLE ++ LF
  ++ specific_task_description ++ LF
  ++ LF
  ++ PROMPT_RULES ++ LF
  ++ LF
  ++ PROMPT_SOURCE_HEADER ++ LF
  ++ DQUOTE ++ text_to_translate ++ DQUOTE ++ LF
  ++ LF
  ++ PROMPT_CUE.

(** ** Transport objects *)

Record InlineKeyboardButton := {
  ikb_text : pystr;
  callback_data : pystr
}.

(** [InlineKeyboardMarkup(rows)] *)
Definition InlineKeyboardMarkup : Type := list (list InlineKeyboardButton).

Record User := {
  user_id : Z;
  mention_html : pystr
}.

Record Message := {
  chat_id : Z;
  message_id : Z;
  message_text : option pystr
}.

Record CallbackQuery := {
  query_id : Z;
  query_data : option pystr;
  query_message : option Message
}.

(** An update as the handlers see it.  Updates routed to these handlers come
    from a user ([effective_user] is the sender of the message, or the user
    who pressed the button). *)
Record Update := {
  effective_user : User;
  message : option Message;
  callback_query : option CallbackQuery
}.

(** ** The generation service *)

Record PyException := {
  exc_class : pystr;
  exc_str : pystr
}.

Record Response := {
  response_text : option pystr;
  prompt_feedback : pystr
}.

(** What one call of [generate_content] does: it raises (an [Exception] of
    the client library or of the network layer), or it returns a response
    object or [None]. *)
Inductive ServiceResult :=
| SvcRaise (e : PyException)
| SvcReturn (response : option Response).

Record Client := {
  api_key : pystr
}.

(** ** Outward calls *)

Inductive LogLevel := ERROR | CRITICAL.

Inductive Event :=
| EvAnswer (query : Z)
| EvReplyHtml (chat : Z) (body : pystr)
| EvReplyText (chat : Z) (body : pystr) (reply_markup : option InlineKeyboardMarkup)
| EvEditMessageText (chat msg : Z) (body : pystr) (parse_mode : option pystr)
    (reply_markup : option InlineKeyboardMarkup)
| EvGenerateContent (model contents : pystr)
| EvLog (level : LogLevel) (msg : pystr)
| EvPrint (msg : pystr).

(** ** The world the coroutines run in *)

Record World := {
  gemini_client : option Client;
  user_data : gmap Z (gmap pystr pystr);
  trace : list Event
}.

Inductive Res (A : Type) :=
| Ok (a : A)
| Raise (e : PyException).
Arguments Ok {A} a.
Arguments Raise {A} e.

Definition M (A : Type) : Type := World -> Res A * World.

Definition ret {A : Type} (a : A) : M A := fun w => (Ok a, w).

Definition bind {A B : Type} (m : M A) (k : A -> M B) : M B :=
  fun w =>
    match m w with
    | (Ok a, w') => k a w'
    | (Raise e, w') => (Raise e, w')
    end.

Definition raise {A : Type} (e : PyException) : M A := fun w => (Raise e, w).

(** [try: body  except Exception as e: handler(e)] *)
Definition try_except {A : Type} (body : M A) (handler : PyException -> M A) : M A :=
  fun w =>
    match body w with
    | (Ok a, w') => (Ok a, w')
    | (Raise e, w') => handler e w'
    end.

Declare Scope py_scope.
Delimit Scope py_scope with py.
Notation "x <- m ;; k" := (bind m (fun x => k))
  (at level 100, m at next level, right associativity) : py_scope.
Notation "m ;;; k" := (bind m (fun _ => k))
  (at level 100, right associativity) : py_scope.

Definition emit (e : Event) : M unit :=
  fun w =>
    (Ok tt, {| gemini_client := gemini_client w;
               user_data := user_data w;
               trace := trace w ++ [e] |}).

Definition read_gemini_client : M (option Client) :=
  fun w => (Ok (gemini_client w), w).

Definition write_gemini_client (c : Client) : M unit :=
  fun w =>
    (Ok tt, {| gemini_client := Some c;
               user_data := user_data w;
               trace := trace w |}).

(** [context.user_data]: the dictionary of the update's user; the framework
    keeps them in a [defaultdict(dict)], so a user not seen before has an
    empty one. *)
Definition user_dict (w : World) (uid : Z) : gmap pystr pystr :=
  default ∅ (user_data w !! uid).

Definition set_user_dict (uid : Z) (d : gmap pystr pystr) : M unit :=
  fun w =>
    (Ok tt, {| gemini_client := gemini_client w;
               user_data := <[uid := d]> (user_data w);
               trace := trace w |}).

(** [context.user_data[key] = value] *)
Definition user_data_setitem (uid : Z) (key value : pystr) : M unit :=
  fun w => set_user_dict uid (<[key := value]> (user_dict w uid)) w.

(** [context.user_data.pop(key, None)] *)
Definition user_data_pop (uid : Z) (key : pystr) : M (option pystr) :=
  fun w =>
    let d := user_dict w uid in
    match set_user_dict uid (delete key d) w with
    | (_, w') => (Ok (d !! key), w')
    end.

(** [context.user_data.clear()] *)
Definition user_data_clear (uid : Z) : M unit := set_user_dict uid ∅.

(** [d[key]]: raises [KeyError] when the key is absent. *)
Definition dict_getitem {V : Type} (key : pystr) (d : list (pystr * V)) : M V :=
  match dict_get key d with
  | Some v => ret v
  | None => raise {| exc_class := py "KeyError"; exc_str := key |}
  end.

Local Open Scope py_scope.

(** The key under which the pending text is kept. *)
Definition ORIGINAL_TEXT : pystr := py "original_text".

Definition MODE_PREFIX : pystr := py "mode_".

(** The texts shown to the user. *)
Definition MSG_CHOOSE : pystr := py "Выберите направление перевода:".

Definition MSG_UNKNOWN_MODE : pystr := py "😕 Ошибка: выбран неизвестный режим.".

Definition MSG_NO_TEXT : pystr :=
  py "😕 Ошибка: текст для перевода не найден. Пожалуйста, отправьте его снова.".

Definition working_message (selected_mode_button_text : pystr) : pystr :=
  py "Перевожу: " ++ DQUOTE ++ selected_mode_button_text ++ DQUOTE
  ++ py ". Подождите... ⏳".

Definition result_message (translated_text : pystr) : pystr :=
  py "🧐 *Результат*:" ++ LF ++ LF ++ translated_text ++ LF ++ LF
  ++ py "➖➖➖➖➖" ++ LF
  ++ py "Отправьте новый текст, если нужно.".

Definition error_message (selected_mode_button_text : pystr) : pystr :=
  py "😕 Упс! Не удалось перевести в режиме «" ++ selected_mode_button_text
  ++ py "».".

Definition greeting (mention : pystr) : pystr :=
  py "Привет, " ++ mention ++ py "!" ++ LF ++ LF
  ++ py "Отправь мне текст, и я помогу перевести его со сленга на понятный язык или наоборот. 📝🔄".

(** The calls on the transport. *)
Definition answer (query : CallbackQuery) : M unit :=
  emit (EvAnswer (query_id query)).

Definition edit_message_text (m : Message) (body : pystr)
    (parse_mode : option pystr) (reply_markup : option InlineKeyboardMarkup) : M unit :=
  emit (EvEditMessageText (chat_id m) (message_id m) body parse_mode reply_markup).

Definition reply_text (m : Message) (body : pystr)
    (reply_markup : option InlineKeyboardMarkup) : M unit :=
  emit (EvReplyText (chat_id m) body reply_markup).

Definition reply_html (m : Message) (body : pystr) : M unit :=
  emit (EvReplyHtml (chat_id m) body).

Definition log (level : LogLevel) (msg : pystr) : M unit :=
  emit (EvLog level msg).

Definition build_translation_mode_keyboard : InlineKeyboardMarkup :=
  let keyboard_row :=
    map (fun kd : pystr * ModeInfo =>
           {| ikb_text := button_text (snd kd);
              callback_data := MODE_PREFIX ++ fst kd |})
        ACTIVE_MODES in
  [keyboard_row].

Inductive Handler := OnStart | OnText | OnSelection.

Section Bot.

(** The generation service: the answer to a request with the given model
    name and contents, which may depend on everything that happened
    before. *)
Variable generate_content : list Event -> pystr -> pystr -> ServiceResult.

(** [await gemini_client.aio.models.generate_content(model=..., contents=...)] *)
Definition call_generate_content (client : Client) (model contents : pystr)
    : M (option Response) :=
  fun w =>
    match emit (EvGenerateContent model contents) w with
    | (_, w') =>
      match generate_content (trace w) model contents with
      | SvcRaise e => (Raise e, w')
      | SvcReturn response => (Ok response, w')
      end
    end.

Definition translate_text_with_gemini (text_to_translate mode_key : pystr)
    : M (option pystr) :=
  client <- read_gemini_client ;;
  match client with
  | None =>
    log CRITICAL (py "Клиент Gemini не инициализирован при попытке перевода.") ;;;
    ret None
  | Some client =>
    match dict_get mode_key ACTIVE_MODES with
    | None =>
      log ERROR (py "Попытка использовать несуществующий режим: " ++ mode_key) ;;;
      ret None
    | Some mode_info =>
      let specific_task_description := gemini_prompt mode_info in
      let prompt := build_prompt specific_task_description text_to_translate in
      try_except
        (response <- call_generate_content client SELECTED_GEMINI_MODEL prompt ;;
         match response with
         | Some r =>
           match response_text r with
           | Some t =>
             if truthy t then ret (Some (strip t))
             else
               log ERROR (py "Gemini не вернул текст. Feedback: " ++ prompt_feedback r) ;;;
               ret None
           | None =>
             log ERROR (py "Gemini не вернул текст. Feedback: " ++ prompt_feedback r) ;;;
             ret None
           end
         | None =>
           log ERROR (py "Gemini не вернул текст. Feedback: " ++ py "N/A") ;;;
           ret None
         end)
        (fun e =>
           log ERROR (py "Критическая ошибка при запросе к Gemini API: " ++ exc_str e) ;;;
           ret None)
    end
  end.

Definition start_command (update : Update) : M unit :=
  match message update with
  | None => ret tt
  | Some m =>
    let user := effective_user update in
    reply_html m (greeting (mention_html user)) ;;;
    user_data_clear (user_id user)
  end.

Definition handle_text_message (update : Update) : M unit :=
  match message update with
  | None => ret tt
  | Some m =>
    match message_text m with
    | None => ret tt
    | Some t =>
      if negb (truthy t) then ret tt
      else
        user_data_setitem (user_id (effective_user update)) ORIGINAL_TEXT t ;;;
        let reply_markup := build_translation_mode_keyboard in
        reply_text m MSG_CHOOSE (Some reply_markup)
    end
  end.

Definition handle_mode_selection (update : Update) : M unit :=
  match callback_query update with
  | None => ret tt
  | Some query =>
    match query_data query, query_message query with
    | Some data, Some qmsg =>
      if negb (truthy data) then ret tt
      else
        answer query ;;;
        let mode_key := drop (length MODE_PREFIX) data in
        if negb (dict_contains mode_key ACTIVE_MODES) then
          edit_message_text qmsg MSG_UNKNOWN_MODE None None
        else
          mode_info <- dict_getitem mode_key ACTIVE_MODES ;;
          let selected_mode_button_text := button_text mode_info in
          original_text <-
            user_data_pop (user_id (effective_user update)) ORIGINAL_TEXT ;;
          match original_text with
          | None => edit_message_text qmsg MSG_NO_TEXT None None
          | Some original_text =>
            if negb (truthy original_text) then
              edit_message_text qmsg MSG_NO_TEXT None None
            else
              edit_message_text qmsg
                (working_message selected_mode_button_text) None None ;;;
              translated_text <-
                translate_text_with_gemini original_text mode_key ;;
              match translated_text with
              | None =>
                edit_message_text qmsg
                  (error_message selected_mode_button_text) None None
              | Some translated_text =>
                if truthy translated_text then
                  edit_message_text qmsg (result_message translated_text)
                    (Some (py "Markdown")) None
                else
                  edit_message_text qmsg
                    (error_message selected_mode_button_text) None None
              end
          end
    | _, _ => ret tt
    end
  end.

(** The three handlers [main] registers, and the processing of updates one
    after the other, each by the handler it is routed to. *)
Definition run_handler (h : Handler) (update : Update) : M unit :=
  match h with
  | OnStart => start_command update
  | OnText => handle_text_message update
  | OnSelection => handle_mode_selection update
  end.

Fixpoint run_updates (updates : list (Handler * Update)) : M unit :=
  match updates with
  | [] => ret tt
  | (h, update) :: rest => run_handler h update ;;; run_updates rest
  end.

(** What [main] reads from the environment, and what constructing the
    service client does. *)
Variable TELEGRAM_BOT_TOKEN : option pystr.
Variable GEMINI_API_KEY : option pystr.
Variable genai_Client : pystr -> Res Client.

(** [main]: the result tells whether polling was started. *)
Definition main : M bool :=
  if negb (truthy_opt TELEGRAM_BOT_TOKEN) then
    log CRITICAL (py "TELEGRAM_BOT_TOKEN не найден! Запуск невозможен.") ;;;
    ret false
  else
    match GEMINI_API_KEY with
    | None =>
      log CRITICAL (py "GEMINI_API_KEY не найден! Запуск невозможен.") ;;;
      ret false
    | Some key =>
      if negb (truthy key) then
        log CRITICAL (py "GEMINI_API_KEY не найден! Запуск невозможен.") ;;;
        ret false
      else
        match genai_Client key with
        | Raise e =>
          log CRITICAL
            (py "Критическая ошибка инициализации клиента Gemini: " ++ exc_str e) ;;;
          ret false
        | Ok client =>
          write_gemini_client client ;;;
          emit (EvPrint (py "Бот запущен и готов к работе.")) ;;;
          ret true
        end
    end.

End Bot.

(** ** Vocabulary of the properties *)

(** The pending text of a user: the entry of the user's dictionary under
    ['original_text']. *)
Definition pending (w : World) (uid : Z) : option pystr :=
  user_dict w uid !! ORIGINAL_TEXT.

(** The update is a text message carrying the non-empty text [t]. *)
Definition text_event (u : Update) (m : Message) (t : pystr) : Prop :=
  message u = Some m /\ message_text m = Some t /\ t <> [].

(** The update is a press on a button of the message [m] whose callback data
    is ['mode_' + mode_key]. *)
Definition selection_event (u : Update) (q : CallbackQuery) (m : Message)
    (mode_key : pystr) : Prop :=
  callback_query u = Some q
  /\ query_data q = Some (MODE_PREFIX ++ mode_key)
  /\ query_message q = Some m.

Definition is_call (e : Event) : bool :=
  match e with EvGenerateContent _ _ => true | _ => false end.

Definition is_render (e : Event) : bool :=
  match e with
  | EvReplyHtml _ _ | EvReplyText _ _ _ | EvEditMessageText _ _ _ _ _ => true
  | _ => false
  end.

(** The requests sent to the generation service among some events. *)
Definition gateway_calls (evs : list Event) : list Event := List.filter is_call evs.

(** The render instructions among some events. *)
Definition renders (evs : list Event) : list Event := List.filter is_render evs.

(** The world after some more outward calls. *)
Definition after_events (w : World) (evs : list Event) : World :=
  {| gemini_client := gemini_client w;
     user_data := user_data w;
     trace := trace w ++ evs |}.

(** The world after the dictionary of [uid] was replaced by [d]. *)
Definition with_user_dict (w : World) (uid : Z) (d : gmap pystr pystr) : World :=
  {| gemini_client := gemini_client w;
     user_data := <[uid := d]> (user_data w);
     trace := trace w |}.

(** The service answered without usable text: it raised, returned [None], or
    returned a response whose text is [None] or empty. *)
Definition service_fails (r : ServiceResult) : Prop :=
  match r with
  | SvcRaise _ => True
  | SvcReturn None => True
  | SvcReturn (Some resp) => truthy_opt (response_text resp) = false
  end.

(** [s] is [t] without the white space at its two ends. *)
Definition trimmed (t s : pystr) : Prop :=
  exists leading trailing : pystr,
    t = leading ++ s ++ trailing
    /\ forallb isspace leading = true
    /\ forallb isspace trailing = true
    /\ (forall c r, s = c :: r -> isspace c = false)
    /\ (forall r c, s = r ++ [c] -> isspace c = false).

(** [sub] occurs in [s] as a contiguous run. *)
Definition occurs_in (sub s : pystr) : Prop :=
  exists before after : pystr, s = before ++ sub ++ after.

(** The world with another store. *)
Definition with_user_data (w : World) (store : gmap Z (gmap pystr pystr)) : World :=
  {| gemini_client := gemini_client w; user_data := store; trace := trace w |}.

(** The edit of the keyboard message [m] that shows [body] without buttons. *)
Definition edit_event (m : Message) (body : pystr) (parse_mode : option pystr) : Event :=
  EvEditMessageText (chat_id m) (message_id m) body parse_mode None.

(** The world in which a selection that found a pending text calls the
    gateway: the callback is answered, the text is popped and the working
    message is shown. *)
Definition world_at_call (w : World) (uid : Z) (q : CallbackQuery) (m : Message)
    (mode : ModeInfo) : World :=
  with_user_dict
    (after_events w
       [EvAnswer (query_id q);
        edit_event m (working_message (button_text mode)) None])
    uid (delete ORIGINAL_TEXT (user_dict w uid)).

(** The render that ends a selection, by what the gateway returned: the
    result message for a non-empty string, the error message naming the
    mode's label otherwise. *)
Definition final_render (m : Message) (mode : ModeInfo) (o : option pystr) : Event :=
  match o with
  | Some (c :: tr) => edit_event m (result_message (c :: tr)) (Some (py "Markdown"))
  | _ => edit_event m (error_message (button_text mode)) None
  end.

(** A computation that serves the user [uid]: it returns normally, keeps the
    client, leaves the dictionaries of all other users alone and only adds
    to the trace. *)
Definition serves {A : Type} (uid : Z) (c : M A) : Prop :=
  forall w : World,
    exists (a : A) (w' : World) (evs : list Event),
      c w = (Ok a, w')
      /\ gemini_client w' = gemini_client w
      /\ (forall uid' : Z, uid' <> uid -> user_data w' !! uid' = user_data w !! uid')
      /\ trace w' = trace w ++ evs.

(** All the updates come from users other than [uid]. *)
Definition from_others (uid : Z) (updates : list (Handler * Update)) : Prop :=
  Forall (fun hu : Handler * Update => user_id (effective_user (snd hu)) <> uid) updates.

(** ** Sample data *)

Definition alice : User := {| user_id := 1; mention_html := py "alice" |}.

Definition keyboard_message : Message :=
  {| chat_id := 1; message_id := 8; message_text := Some MSG_CHOOSE |}.

Definition text_message (t : pystr) : Message :=
  {| chat_id := 1; message_id := 7; message_text := Some t |}.

Definition text_update (t : pystr) : Update :=
  {| effective_user := alice;
     message := Some (text_message t);
     callback_query := None |}.

Definition sample_query (mode_key : pystr) : CallbackQuery :=
  {| query_id := 5;
     query_data := Some (MODE_PREFIX ++ mode_key);
     query_message := Some keyboard_message |}.

Definition selection_update (mode_key : pystr) : Update :=
  {| effective_user := alice;
     message := None;
     callback_query := Some (sample_query mode_key) |}.

Definition bob : User := {| user_id := 2; mention_html := py "bob" |}.

Definition bob_text : Update :=
  {| effective_user := bob;
     message := Some {| chat_id := 2; message_id := 3; message_text := Some (py "йо") |};
     callback_query := None |}.

Definition sample_client : Client := {| api_key := py "secret" |}.

(** A world in which [alice] has the pending text "привет". *)
Definition pending_world : World :=
  {| gemini_client := Some sample_client;
     user_data := {[ 1%Z := {[ ORIGINAL_TEXT := py "привет" ]} ]};
     trace := [] |}.

Definition blank_response : Response :=
  {| response_text := Some (py "  "); prompt_feedback := py "None" |}.

Definition slang_response : Response :=
  {| response_text := Some (py " йоу "); prompt_feedback := py "None" |}.

Definition service_returns (resp : Response) : list Event -> pystr -> pystr -> ServiceResult :=
  fun _ _ _ => SvcReturn (Some resp).

Definition ready_world : World :=
  {| gemini_client := Some sample_client; user_data := ∅; trace := [] |}.

Definition to_slang : pystr := py "standard_russian_to_slang".

Definition to_slang_info : ModeInfo :=
  {| button_text := py "Понятно 🧐 → Сленг 🧢";
     gemini_prompt := py "Твоя задача — перевести этот текст, написанный на стандартном русском языке, на современный молодежный сленг (для аудитории 16-25 лет). Сделай текст максимально неформальным, живым, добавь характерные словечки и обороты. Важно точно передать смысл в сленговой манере." |}.

Definition some_exception : PyException :=
  {| exc_class := py "ServerError"; exc_str := py "503 UNAVAILABLE" |}.

Definition service_raises : list Event -> pystr -> pystr -> ServiceResult :=
  fun _ _ _ => SvcRaise some_exception.

Definition service_no_text : list Event -> pystr -> pystr -> ServiceResult :=
  fun _ _ _ => SvcReturn (Some {| response_text := None; prompt_feedback := py "None" |}).

(** ** Vocabulary of the further properties *)

(** The update carries no text to translate: no message, or a message whose
    text is [None] or empty. *)
Definition no_text_content (u : Update) : Prop :=
  match message u with
  | None => True
  | Some m => truthy_opt (message_text m) = false
  end.

(** The update carries no usable button press: no callback query, or one
    without data or without the message it was attached to. *)
Definition incomplete_callback (u : Update) : Prop :=
  match callback_query u with
  | None => True
  | Some q => truthy_opt (query_data q) = false \/ query_message q = None
  end.







(** A computation that returns normally and keeps the property [P] of the
    world. *)
Definition keeps_store {A : Type} (P : World -> Prop) (c : M A) : Prop :=
  forall w : World,
    P w -> exists (a : A) (w' : World), c w = (Ok a, w') /\ P w'.

(** The one row of buttons of the keyboard. *)
Definition keyboard_row : list InlineKeyboardButton :=
  concat build_translation_mode_keyboard.

(** What the renders of a selection start with when its button carries the
    label [label]: the no-text error, or the working message with that
    label. *)
Definition renders_for_label (m : Message) (label : pystr) (rs : list Event) : Prop :=
  rs = [edit_event m MSG_NO_TEXT None]
  \/ exists final : Event, rs = [edit_event m (working_message label) None; final].

(** The store holds nothing but pending texts, none of them empty: every
    entry of every user's dictionary is under ['original_text'] and is a
    non-empty string. *)
Definition store_wf (w : World) : Prop :=
  forall (uid : Z) (k v : pystr),
    user_dict w uid !! k = Some v -> k = ORIGINAL_TEXT /\ v <> [].

(** The world a bot starts in: no client yet, nothing stored, nothing done. *)
Definition fresh_world : World :=
  {| gemini_client := None; user_data := ∅; trace := [] |}.

Definition to_slang_button : InlineKeyboardButton :=
  {| ikb_text := button_text to_slang_info; callback_data := MODE_PREFIX ++ to_slang |}.

Definition start_update : Update :=
  {| effective_user := alice;
     message := Some {| chat_id := 1; message_id := 9; message_text := Some (py "/start") |};
     callback_query := None |}.

Definition empty_update : Update :=
  {| effective_user := alice; message := None; callback_query := None |}.

Definition ok_constructor : pystr -> Res Client :=
  fun key => Ok {| api_key := key |}.


(** ** Strings *)

(** [py] on characters of one, two, three and four bytes. *)
Example py_code_points : py "a Я → 🧢" = [97; 32; 1071; 32; 8594; 32; 129506].
Proof. reflexivity. Qed.

(** [len("mode_")] *)
Example len_mode_prefix : length MODE_PREFIX = 5%nat.
Proof. reflexivity. Qed.

(** [" \t йоу\n".strip()] and a string of spaces only. *)
Example strip_examples :
  strip ([32; 9] ++ py "йоу" ++ [10]) = py "йоу" /\ strip [32; 160; 8195; 10] = [].
Proof. split; reflexivity. Qed.

Lemma truthy_true_iff (s : pystr) : truthy s = true <-> s <> [].
Proof. destruct s; simpl; split; intros; congruence. Qed.

Lemma lstrip_blank (s : pystr) : forallb isspace s = true -> lstrip s = [].
Proof.
  induction s as [|c r IH]; simpl; [reflexivity|].
  intros H. apply andb_true_iff in H. destruct H as [Hc Hr].
  rewrite Hc. auto.
Qed.

Lemma strip_blank (s : pystr) : forallb isspace s = true -> strip s = [].
Proof.
  intros H. unfold strip, rstrip. rewrite (lstrip_blank s H). reflexivity.
Qed.

(** What [lstrip] leaves is a suffix that does not start with a space. *)
Lemma lstrip_suffix (s : pystr) :
  exists blanks : pystr,
    s = blanks ++ lstrip s /\ forallb isspace blanks = true
    /\ (forall c r, lstrip s = c :: r -> isspace c = false).
Proof.
  induction s as [|c r IH]; simpl.
  - exists []. repeat split; intros; discriminate.
  - destruct (isspace c) eqn:Hc.
    + destruct IH as (b & Hb & Hsp & Hhd).
      exists (c :: b). simpl. rewrite Hc, Hsp. repeat split; auto.
      congruence.
    + exists []. repeat split; auto.
      intros c' r' Heq. inversion Heq; subst. exact Hc.
Qed.

(** [strip] removes a run of spaces at each end and nothing else; what is
    left neither starts nor ends with a space. *)
Lemma strip_spec (s : pystr) :
  exists left right : pystr,
    s = left ++ strip s ++ right
    /\ forallb isspace left = true
    /\ forallb isspace right = true
    /\ (forall c r, strip s = c :: r -> isspace c = false)
    /\ (forall r c, strip s = r ++ [c] -> isspace c = false).
Proof.
  destruct (lstrip_suffix s) as (lft & Hs & Hl & Hhd).
  destruct (lstrip_suffix (rev (lstrip s))) as (rgt & Hr & Hrsp & Hlast).
  exists lft, (rev rgt).
  assert (Hmid : lstrip s = strip s ++ rev rgt).
  { unfold strip, rstrip. rewrite <- rev_app_distr, <- Hr, rev_involutive.
    reflexivity. }
  assert (Hrr : forallb isspace (rev rgt) = true).
  { apply forallb_forall. intros x Hx. apply in_rev in Hx.
    rewrite forallb_forall in Hrsp. auto. }
  split; [rewrite <- Hmid; exact Hs|].
  split; [exact Hl|]. split; [exact Hrr|]. split.
  - intros c r Heq. rewrite Heq in Hmid. simpl in Hmid. eapply Hhd; eauto.
  - intros r c Heq. unfold strip, rstrip in Heq.
    apply (f_equal (@rev N)) in Heq.
    rewrite rev_involutive, rev_app_distr in Heq. simpl in Heq.
    eapply Hlast; eauto.
Qed.

Lemma strip_trimmed (s : pystr) : trimmed s (strip s).
Proof. apply strip_spec. Qed.

Lemma drop_mode_prefix (mode_key : pystr) :
  drop (length MODE_PREFIX) (MODE_PREFIX ++ mode_key) = mode_key.
Proof. apply drop_app_length. Qed.

Lemma truthy_mode_data (mode_key : pystr) : truthy (MODE_PREFIX ++ mode_key) = true.
Proof. reflexivity. Qed.

Lemma occurs_in_middle (a sub b : pystr) : occurs_in sub (a ++ sub ++ b).
Proof. exists a, b. reflexivity. Qed.

(** ** Worlds *)

Lemma user_dict_with_same (w : World) uid d : user_dict (with_user_dict w uid d) uid = d.
Proof. unfold user_dict, with_user_dict. simpl. rewrite lookup_insert_eq. reflexivity. Qed.

Lemma pending_after_pop (w : World) (uid : Z) (d : gmap pystr pystr) :
  pending (with_user_dict w uid (delete ORIGINAL_TEXT d)) uid = None.
Proof. unfold pending. rewrite user_dict_with_same. apply lookup_delete_eq. Qed.

Lemma pending_after_setitem (w : World) (uid : Z) (d : gmap pystr pystr) (t : pystr) :
  pending (with_user_dict w uid (<[ORIGINAL_TEXT := t]> d)) uid = Some t.
Proof. unfold pending. rewrite user_dict_with_same. apply lookup_insert_eq. Qed.

Section Properties.

Variable generate_content : list Event -> pystr -> pystr -> ServiceResult.

Abbreviation translate := (translate_text_with_gemini generate_content).
Abbreviation on_selection := (handle_mode_selection generate_content).

(** *** The gateway, case by case *)

Lemma translate_no_client (text mode_key : pystr) (w : World) :
  gemini_client w = None ->
  translate text mode_key w =
    (Ok None,
     after_events w
       [EvLog CRITICAL (py "Клиент Gemini не инициализирован при попытке перевода.")]).
Proof.
  intros Hc. unfold translate_text_with_gemini, bind, read_gemini_client.
  rewrite Hc. reflexivity.
Qed.

Lemma translate_unknown_mode (text mode_key : pystr) (w : World) (client : Client) :
  gemini_client w = Some client ->
  dict_get mode_key ACTIVE_MODES = None ->
  translate text mode_key w =
    (Ok None,
     after_events w
       [EvLog ERROR (py "Попытка использовать несуществующий режим: " ++ mode_key)]).
Proof.
  intros Hc Hm. unfold translate_text_with_gemini, bind, read_gemini_client.
  rewrite Hc, Hm. reflexivity.
Qed.

Lemma translate_success (text mode_key : pystr) (w : World) (client : Client)
    (mode : ModeInfo) (resp : Response) (t : pystr) :
  gemini_client w = Some client ->
  dict_get mode_key ACTIVE_MODES = Some mode ->
  generate_content (trace w) SELECTED_GEMINI_MODEL
    (build_prompt (gemini_prompt mode) text) = SvcReturn (Some resp) ->
  response_text resp = Some t ->
  t <> [] ->
  translate text mode_key w =
    (Ok (Some (strip t)),
     after_events w
       [EvGenerateContent SELECTED_GEMINI_MODEL (build_prompt (gemini_prompt mode) text)]).
Proof.
  intros Hc Hm Hr Ht Hne.
  unfold translate_text_with_gemini, bind, read_gemini_client.
  rewrite Hc, Hm. unfold try_except, call_generate_content. simpl.
  rewrite Hr, Ht. apply truthy_true_iff in Hne. rewrite Hne. reflexivity.
Qed.

Lemma translate_failure (text mode_key : pystr) (w : World) (client : Client)
    (mode : ModeInfo) :
  gemini_client w = Some client ->
  dict_get mode_key ACTIVE_MODES = Some mode ->
  service_fails (generate_content (trace w) SELECTED_GEMINI_MODEL
                   (build_prompt (gemini_prompt mode) text)) ->
  exists msg : pystr,
    translate text mode_key w =
      (Ok None,
       after_events w
         [EvGenerateContent SELECTED_GEMINI_MODEL
            (build_prompt (gemini_prompt mode) text);
          EvLog ERROR msg]).
Proof.
  intros Hc Hm Hf.
  unfold translate_text_with_gemini, bind, read_gemini_client.
  rewrite Hc, Hm. unfold try_except, call_generate_content. simpl.
  destruct (generate_content _ _ _) as [e | [resp|]]; simpl in *.
  - eexists. unfold after_events. simpl. rewrite <- app_assoc. reflexivity.
  - destruct (response_text resp) as [t|]; simpl in Hf.
    + rewrite Hf. eexists. unfold after_events. simpl.
      rewrite <- app_assoc. reflexivity.
    + eexists. unfold after_events. simpl. rewrite <- app_assoc. reflexivity.
  - eexists. unfold after_events. simpl. rewrite <- app_assoc. reflexivity.
Qed.

(** Either the service gives usable text or it fails. *)
Lemma service_answer_cases (r : ServiceResult) :
  (exists resp t, r = SvcReturn (Some resp) /\ response_text resp = Some t /\ t <> [])
  \/ service_fails r.
Proof.
  destruct r as [e | [resp|]]; simpl; auto.
  destruct (response_text resp) as [[|c t]|] eqn:Ht; simpl; auto.
  left. exists resp, (c :: t). repeat split; auto; discriminate.
Qed.

(** The gateway always returns, touches neither the client nor the store,
    and only adds requests and log records to the trace, at most one
    request and that one first. *)
Lemma translate_frame (text mode_key : pystr) (w : World) :
  exists (o : option pystr) (evs : list Event),
    translate text mode_key w = (Ok o, after_events w evs)
    /\ renders evs = []
    /\ (length (gateway_calls evs) <= 1)%nat.
Proof.
  destruct (gemini_client w) as [client|] eqn:Hc.
  - destruct (dict_get mode_key ACTIVE_MODES) as [mode|] eqn:Hm.
    + destruct (service_answer_cases
                  (generate_content (trace w) SELECTED_GEMINI_MODEL
                     (build_prompt (gemini_prompt mode) text)))
        as [(resp & t & Hr & Ht & Hne) | Hf].
      * rewrite (translate_success _ _ _ _ _ _ _ Hc Hm Hr Ht Hne).
        do 2 eexists. split; [reflexivity|]. simpl. split; [reflexivity|lia].
      * destruct (translate_failure _ _ _ _ _ Hc Hm Hf) as (msg & ->).
        do 2 eexists. split; [reflexivity|]. simpl. split; [reflexivity|lia].
    + rewrite (translate_unknown_mode _ _ _ _ Hc Hm).
      do 2 eexists. split; [reflexivity|]. simpl. split; [reflexivity|lia].
  - rewrite (translate_no_client _ _ _ Hc).
    do 2 eexists. split; [reflexivity|]. simpl. split; [reflexivity|lia].
Qed.

(** *** The selection handler, branch by branch *)

Lemma on_selection_unknown (u : Update) (q : CallbackQuery) (m : Message)
    (mode_key : pystr) (w : World) :
  selection_event u q m mode_key ->
  dict_get mode_key ACTIVE_MODES = None ->
  on_selection u w =
    (Ok tt, after_events w [EvAnswer (query_id q); edit_event m MSG_UNKNOWN_MODE None]).
Proof.
  intros (Hq & Hd & Hm) Hk. unfold handle_mode_selection.
  rewrite Hq, Hd, Hm, truthy_mode_data, drop_mode_prefix.
  unfold dict_contains. rewrite Hk.
  unfold bind, answer, edit_message_text, emit, after_events, edit_event. simpl.
  rewrite <- app_assoc. reflexivity.
Qed.

Lemma on_selection_no_text (u : Update) (q : CallbackQuery) (m : Message)
    (mode_key : pystr) (mode : ModeInfo) (w : World) :
  selection_event u q m mode_key ->
  dict_get mode_key ACTIVE_MODES = Some mode ->
  truthy_opt (pending w (user_id (effective_user u))) = false ->
  on_selection u w =
    (Ok tt,
     with_user_dict
       (after_events w [EvAnswer (query_id q); edit_event m MSG_NO_TEXT None])
       (user_id (effective_user u))
       (delete ORIGINAL_TEXT (user_dict w (user_id (effective_user u))))).
Proof.
  intros (Hq & Hd & Hm) Hk Hp. unfold handle_mode_selection.
  rewrite Hq, Hd, Hm, truthy_mode_data, drop_mode_prefix.
  unfold dict_contains, dict_getitem. rewrite Hk.
  unfold pending in Hp.
  unfold bind, answer, edit_message_text, emit, ret, user_data_pop, set_user_dict.
  simpl. unfold user_dict in *. simpl.
  destruct (default ∅ (user_data w !! user_id (effective_user u)) !! ORIGINAL_TEXT)
    as [t|]; simpl in *.
  - rewrite Hp. simpl.
    unfold with_user_dict, after_events, edit_event. simpl.
    rewrite <- app_assoc. reflexivity.
  - unfold with_user_dict, after_events, edit_event. simpl.
    rewrite <- app_assoc. reflexivity.
Qed.

Lemma on_selection_with_text (u : Update) (q : CallbackQuery) (m : Message)
    (mode_key : pystr) (mode : ModeInfo) (t : pystr) (w : World) :
  selection_event u q m mode_key ->
  dict_get mode_key ACTIVE_MODES = Some mode ->
  pending w (user_id (effective_user u)) = Some t ->
  t <> [] ->
  on_selection u w =
    match translate t mode_key
            (world_at_call w (user_id (effective_user u)) q m mode) with
    | (Ok (Some translated), w2) =>
        if truthy translated then
          (Ok tt,
           after_events w2
             [edit_event m (result_message translated) (Some (py "Markdown"))])
        else
          (Ok tt, after_events w2 [edit_event m (error_message (button_text mode)) None])
    | (Ok None, w2) =>
        (Ok tt, after_events w2 [edit_event m (error_message (button_text mode)) None])
    | (Raise e, w2) => (Raise e, w2)
    end.
Proof.
  intros (Hq & Hd & Hm) Hk Hp Hne. unfold handle_mode_selection.
  rewrite Hq, Hd, Hm, truthy_mode_data, drop_mode_prefix.
  unfold dict_contains, dict_getitem. rewrite Hk.
  unfold pending in Hp. apply truthy_true_iff in Hne.
  unfold bind at 1 2 3. unfold answer, ret, user_data_pop, set_user_dict.
  simpl. unfold user_dict in *. simpl. rewrite Hp, Hne. simpl.
  unfold bind at 1. unfold edit_message_text at 1. simpl.
  unfold bind at 1.
  assert (Hw : forall w1 w2 : World, w1 = w2 ->
            translate t mode_key w1 = translate t mode_key w2) by (intros; congruence).
  rewrite (Hw _ (world_at_call w (user_id (effective_user u)) q m mode)).
  - destruct (translate t mode_key _) as [[[tr|]|e] w2]; try reflexivity.
    destruct (truthy tr); reflexivity.
  - unfold world_at_call, with_user_dict, after_events, edit_event, user_dict.
    simpl. rewrite <- app_assoc. reflexivity.
Qed.

Lemma on_text (u : Update) (m : Message) (t : pystr) (w : World) :
  text_event u m t ->
  handle_text_message u w =
    (Ok tt,
     with_user_dict
       (after_events w
          [EvReplyText (chat_id m) MSG_CHOOSE (Some build_translation_mode_keyboard)])
       (user_id (effective_user u))
       (<[ORIGINAL_TEXT := t]> (user_dict w (user_id (effective_user u))))).
Proof.
  intros (Hm & Ht & Hne). unfold handle_text_message.
  rewrite Hm, Ht. apply truthy_true_iff in Hne. rewrite Hne. reflexivity.
Qed.

(** *** Every handler serves the user of its update *)

Lemma serves_ret {A : Type} (uid : Z) (a : A) : serves uid (ret a).
Proof.
  intros w. exists a, w, []. rewrite app_nil_r. repeat split; reflexivity.
Qed.

Lemma serves_bind {A B : Type} (uid : Z) (c : M A) (k : A -> M B) :
  serves uid c -> (forall a, serves uid (k a)) -> serves uid (bind c k).
Proof.
  intros Hc Hk w. destruct (Hc w) as (a & w1 & e1 & Hr & Hg & Hu & Ht).
  destruct (Hk a w1) as (b & w2 & e2 & Hr2 & Hg2 & Hu2 & Ht2).
  exists b, w2, (e1 ++ e2). unfold bind. rewrite Hr, Hr2.
  split; [reflexivity|]. split; [congruence|]. split.
  - intros uid' Hne. rewrite Hu2, Hu by exact Hne. reflexivity.
  - rewrite Ht2, Ht, app_assoc. reflexivity.
Qed.

Lemma serves_emit (uid : Z) (e : Event) : serves uid (emit e).
Proof. intros w. exists tt, (after_events w [e]), [e]. repeat split; reflexivity. Qed.

Lemma serves_set_user_dict (uid : Z) (d : gmap pystr pystr) :
  serves uid (set_user_dict uid d).
Proof.
  intros w. exists tt, (with_user_dict w uid d), []. simpl.
  rewrite app_nil_r. repeat split; try reflexivity.
  intros uid' Hne. apply lookup_insert_ne. congruence.
Qed.

Lemma serves_user_data_setitem (uid : Z) (key value : pystr) :
  serves uid (user_data_setitem uid key value).
Proof. intros w. unfold user_data_setitem. apply serves_set_user_dict. Qed.

Lemma serves_user_data_pop (uid : Z) (key : pystr) : serves uid (user_data_pop uid key).
Proof.
  intros w. unfold user_data_pop.
  destruct (serves_set_user_dict uid (delete key (user_dict w uid)) w)
    as (a & w' & evs & Hr & H).
  rewrite Hr. exists (user_dict w uid !! key), w', evs. split; [reflexivity|exact H].
Qed.

Lemma serves_translate (uid : Z) (text mode_key : pystr) :
  serves uid (translate text mode_key).
Proof.
  intros w. destruct (translate_frame text mode_key w) as (o & evs & Hr & _).
  exists o, (after_events w evs), evs. rewrite Hr. repeat split; reflexivity.
Qed.

Lemma serves_start_command (u : Update) :
  serves (user_id (effective_user u)) (start_command u).
Proof.
  unfold start_command. destruct (message u) as [m|]; [|apply serves_ret].
  apply serves_bind; [apply serves_emit|]. intros _. apply serves_set_user_dict.
Qed.

Lemma serves_handle_text_message (u : Update) :
  serves (user_id (effective_user u)) (handle_text_message u).
Proof.
  unfold handle_text_message. destruct (message u) as [m|]; [|apply serves_ret].
  destruct (message_text m) as [t|]; [|apply serves_ret].
  destruct (negb (truthy t)); [apply serves_ret|].
  apply serves_bind; [apply serves_user_data_setitem|]. intros _. apply serves_emit.
Qed.

Lemma serves_handle_mode_selection (u : Update) :
  serves (user_id (effective_user u)) (on_selection u).
Proof.
  unfold handle_mode_selection. destruct (callback_query u) as [q|]; [|apply serves_ret].
  destruct (query_data q) as [data|]; [|apply serves_ret].
  destruct (query_message q) as [m|]; [|apply serves_ret].
  destruct (negb (truthy data)); [apply serves_ret|].
  apply serves_bind; [apply serves_emit|]. intros _.
  unfold dict_contains, dict_getitem.
  destruct (dict_get _ ACTIVE_MODES) as [mode|]; simpl; [|apply serves_emit].
  apply serves_bind; [apply serves_ret|]. intros mode_info.
  apply serves_bind; [apply serves_user_data_pop|]. intros [t|]; [|apply serves_emit].
  destruct (negb (truthy t)); [apply serves_emit|].
  apply serves_bind; [apply serves_emit|]. intros _.
  apply serves_bind; [apply serves_translate|]. intros [tr|]; [|apply serves_emit].
  destruct (truthy tr); apply serves_emit.
Qed.

Lemma serves_run_handler (h : Handler) (u : Update) :
  serves (user_id (effective_user u)) (run_handler generate_content h u).
Proof.
  destruct h; simpl.
  - apply serves_start_command.
  - apply serves_handle_text_message.
  - apply serves_handle_mode_selection.
Qed.

(** Processing updates never raises and keeps the client. *)
Lemma run_updates_keep_client (updates : list (Handler * Update)) (w : World) :
  exists w' : World,
    run_updates generate_content updates w = (Ok tt, w')
    /\ gemini_client w' = gemini_client w.
Proof.
  revert w. induction updates as [|[h u] rest IH]; intros w.
  - exists w. split; reflexivity.
  - simpl. unfold bind.
    destruct (serves_run_handler h u w) as ([] & w1 & evs & Hr & Hg & _).
    rewrite Hr. destruct (IH w1) as (w2 & Hr2 & Hg2).
    exists w2. split; [exact Hr2 | congruence].
Qed.

(** Updates of other users never raise and leave the client and the
    dictionary of [uid], so its pending text, as they are. *)
Lemma run_updates_of_others (uid : Z) (updates : list (Handler * Update)) (w : World) :
  from_others uid updates ->
  exists w' : World,
    run_updates generate_content updates w = (Ok tt, w')
    /\ gemini_client w' = gemini_client w
    /\ user_dict w' uid = user_dict w uid
    /\ pending w' uid = pending w uid.
Proof.
  intros Hall. revert w. induction Hall as [|[h u] rest Hu _ IH]; intros w.
  - exists w. repeat split; reflexivity.
  - simpl in Hu. simpl. unfold bind.
    destruct (serves_run_handler h u w) as ([] & w1 & evs & Hr & Hg & Hd & _).
    rewrite Hr. destruct (IH w1) as (w2 & Hr2 & Hg2 & Hd2 & Hp2).
    assert (H1 : user_dict w1 uid = user_dict w uid).
    { unfold user_dict. rewrite Hd by congruence. reflexivity. }
    exists w2. split; [exact Hr2|]. split; [congruence|].
    split; [congruence|]. rewrite Hp2. unfold pending. rewrite H1. reflexivity.
Qed.

(** *** A selection that finds a pending text *)

Lemma on_selection_outcome (u : Update) (q : CallbackQuery) (m : Message)
    (mode_key : pystr) (mode : ModeInfo) (t : pystr) (w : World)
    (o : option pystr) (gw : list Event) :
  selection_event u q m mode_key ->
  dict_get mode_key ACTIVE_MODES = Some mode ->
  pending w (user_id (effective_user u)) = Some t ->
  t <> [] ->
  translate t mode_key (world_at_call w (user_id (effective_user u)) q m mode)
    = (Ok o, after_events (world_at_call w (user_id (effective_user u)) q m mode) gw) ->
  on_selection u w =
    (Ok tt,
     with_user_dict
       (after_events w
          ([EvAnswer (query_id q);
            edit_event m (working_message (button_text mode)) None]
           ++ gw ++ [final_render m mode o]))
       (user_id (effective_user u))
       (delete ORIGINAL_TEXT (user_dict w (user_id (effective_user u))))).
Proof.
  intros Hsel Hk Hp Hne Htr.
  rewrite (on_selection_with_text u q m mode_key mode t w Hsel Hk Hp Hne), Htr.
  destruct o as [[|c tr]|]; simpl;
    unfold world_at_call, with_user_dict, after_events; simpl;
    rewrite <- ?app_assoc; reflexivity.
Qed.

Lemma gateway_calls_app (a b : list Event) :
  gateway_calls (a ++ b) = gateway_calls a ++ gateway_calls b.
Proof. unfold gateway_calls. apply List.filter_app. Qed.

Lemma renders_app (a b : list Event) : renders (a ++ b) = renders a ++ renders b.
Proof. unfold renders. apply List.filter_app. Qed.

Lemma final_render_is_render (m : Message) (mode : ModeInfo) (o : option pystr) :
  renders [final_render m mode o] = [final_render m mode o]
  /\ gateway_calls [final_render m mode o] = [].
Proof. destruct o as [[|c tr]|]; split; reflexivity. Qed.

(** With the client in place, the gateway sends exactly one request, first,
    built from the mode's template and the text. *)
Lemma translate_ready (text mode_key : pystr) (w : World) (client : Client)
    (mode : ModeInfo) :
  gemini_client w = Some client ->
  dict_get mode_key ACTIVE_MODES = Some mode ->
  exists (o : option pystr) (logs : list Event),
    translate text mode_key w =
      (Ok o,
       after_events w
         (EvGenerateContent SELECTED_GEMINI_MODEL
            (build_prompt (gemini_prompt mode) text) :: logs))
    /\ gateway_calls logs = [] /\ renders logs = [].
Proof.
  intros Hc Hm.
  destruct (service_answer_cases
              (generate_content (trace w) SELECTED_GEMINI_MODEL
                 (build_prompt (gemini_prompt mode) text)))
    as [(resp & t & Hr & Ht & Hne) | Hf].
  - rewrite (translate_success _ _ _ _ _ _ _ Hc Hm Hr Ht Hne).
    exists (Some (strip t)), []. repeat split; reflexivity.
  - destruct (translate_failure _ _ _ _ _ Hc Hm Hf) as (msg & ->).
    exists None, [EvLog ERROR msg]. repeat split; reflexivity.
Qed.

(** *** The properties of the specification *)

(** C9.  Building the prompt is a total function of the mode's template
    and the raw text.  For every mode and every text (empty, with quote
    characters or with the prompt's own delimiters alike) the prompt is
    the fixed role line, the template verbatim, the fixed rules and header,
    then the raw text between two double quotes, then the fixed cue.
    Nothing of the text is dropped or escaped: the length adds up, and the
    text can be read back from the prompt. *)
Theorem build_prompt_embeds_template_and_text (mode : ModeInfo) (raw : pystr) :
  build_prompt (gemini_prompt mode) raw
    = (PROMPT_ROLE ++ LF) ++ gemini_prompt mode
      ++ (LF ++ LF ++ PROMPT_RULES ++ LF ++ LF ++ PROMPT_SOURCE_HEADER ++ LF)
      ++ (DQUOTE ++ raw ++ DQUOTE) ++ (LF ++ LF ++ PROMPT_CUE)
  /\ occurs_in (gemini_prompt mode) (build_prompt (gemini_prompt mode) raw)
  /\ occurs_in (DQUOTE ++ raw ++ DQUOTE) (build_prompt (gemini_prompt mode) raw)
  /\ length (build_prompt (gemini_prompt mode) raw)
     = (length (build_prompt [] []) + length (gemini_prompt mode) + length raw)%nat
  /\ (forall raw' : pystr,
        build_prompt (gemini_prompt mode) raw' = build_prompt (gemini_prompt mode) raw ->
        raw' = raw).
Proof.
  assert (Heq : forall r, build_prompt (gemini_prompt mode) r
    = (PROMPT_ROLE ++ LF) ++ gemini_prompt mode
      ++ (LF ++ LF ++ PROMPT_RULES ++ LF ++ LF ++ PROMPT_SOURCE_HEADER ++ LF)
      ++ (DQUOTE ++ r ++ DQUOTE) ++ (LF ++ LF ++ PROMPT_CUE)).
  { intros r. unfold build_prompt. rewrite <- !app_assoc. reflexivity. }
  split; [apply Heq|]. split; [|split; [|split]].
  - rewrite Heq. apply occurs_in_middle.
  - rewrite Heq.
    exists ((PROMPT_ROLE ++ LF) ++ gemini_prompt mode
            ++ (LF ++ LF ++ PROMPT_RULES ++ LF ++ LF ++ PROMPT_SOURCE_HEADER ++ LF)),
           (LF ++ LF ++ PROMPT_CUE).
    rewrite <- !app_assoc. reflexivity.
  - unfold build_prompt. rewrite !length_app. simpl. lia.
  - intros raw' H. rewrite !Heq in H.
    apply app_inv_head in H. apply app_inv_head in H. apply app_inv_head in H.
    apply app_inv_tail in H. apply app_inv_head in H. apply app_inv_tail in H.
    exact H.
Qed.

(** C4.  A selection whose mode key is not registered is answered, shows
    the unknown-mode error and nothing else: no request goes to the
    generation service and the store is left exactly as it was; whatever
    the store holds, the handler does the same (the store is not read). *)
Theorem unknown_mode_touches_nothing (u : Update) (q : CallbackQuery) (m : Message)
    (mode_key : pystr) (w : World) :
  selection_event u q m mode_key ->
  dict_get mode_key ACTIVE_MODES = None ->
  exists (w' : World) (evs : list Event),
    on_selection u w = (Ok tt, w')
    /\ trace w' = trace w ++ evs
    /\ renders evs = [edit_event m MSG_UNKNOWN_MODE None]
    /\ gateway_calls evs = []
    /\ user_data w' = user_data w
    /\ pending w' (user_id (effective_user u)) = pending w (user_id (effective_user u))
    /\ (forall store : gmap Z (gmap pystr pystr),
          on_selection u (with_user_data w store) = (Ok tt, with_user_data w' store)).
Proof.
  intros Hsel Hk.
  exists (after_events w [EvAnswer (query_id q); edit_event m MSG_UNKNOWN_MODE None]),
         [EvAnswer (query_id q); edit_event m MSG_UNKNOWN_MODE None].
  split; [apply (on_selection_unknown u q m mode_key w Hsel Hk)|].
  repeat split.
  intros store.
  rewrite (on_selection_unknown u q m mode_key (with_user_data w store) Hsel Hk).
  reflexivity.
Qed.

(** C3.  A selection with a registered mode key by a user who has no
    pending text returns normally, shows the no-text error as its only
    render, sends nothing to the generation service, and leaves the user
    without pending text. *)
Theorem selection_without_text_renders_no_text (u : Update) (q : CallbackQuery)
    (m : Message) (mode_key : pystr) (mode : ModeInfo) (w : World) :
  selection_event u q m mode_key ->
  dict_get mode_key ACTIVE_MODES = Some mode ->
  pending w (user_id (effective_user u)) = None ->
  exists (w' : World) (evs : list Event),
    on_selection u w = (Ok tt, w')
    /\ trace w' = trace w ++ evs
    /\ renders evs = [edit_event m MSG_NO_TEXT None]
    /\ gateway_calls evs = []
    /\ pending w' (user_id (effective_user u)) = None.
Proof.
  intros Hsel Hk Hp.
  eexists. exists [EvAnswer (query_id q); edit_event m MSG_NO_TEXT None].
  split.
  - apply (on_selection_no_text u q m mode_key mode w Hsel Hk).
    rewrite Hp. reflexivity.
  - repeat split. apply pending_after_pop.
Qed.

(** The edge case of C3: a second selection right after a selection with a
    registered key finds no text. *)
Lemma second_selection_finds_no_text (u0 u : Update) (q0 q : CallbackQuery)
    (m0 m : Message) (key0 mode_key : pystr) (mode0 mode : ModeInfo) (w : World) :
  selection_event u0 q0 m0 key0 ->
  dict_get key0 ACTIVE_MODES = Some mode0 ->
  selection_event u q m mode_key ->
  dict_get mode_key ACTIVE_MODES = Some mode ->
  user_id (effective_user u) = user_id (effective_user u0) ->
  exists w1 : World,
    on_selection u0 w = (Ok tt, w1)
    /\ on_selection u w1 =
         (Ok tt,
          with_user_dict
            (after_events w1 [EvAnswer (query_id q); edit_event m MSG_NO_TEXT None])
            (user_id (effective_user u))
            (delete ORIGINAL_TEXT (user_dict w1 (user_id (effective_user u))))).
Proof.
  intros Hsel0 Hk0 Hsel Hk Hu.
  assert (H0 : exists w1, on_selection u0 w = (Ok tt, w1)
                          /\ pending w1 (user_id (effective_user u0)) = None).
  { destruct (pending w (user_id (effective_user u0))) as [t|] eqn:Hp.
    - destruct t as [|c t].
      + eexists. split.
        * apply (on_selection_no_text u0 q0 m0 key0 mode0 w Hsel0 Hk0).
          rewrite Hp. reflexivity.
        * apply pending_after_pop.
      + destruct (translate_frame (c :: t) key0
                    (world_at_call w (user_id (effective_user u0)) q0 m0 mode0))
          as (o & gw & Htr & _).
        eexists. split.
        * apply (on_selection_outcome u0 q0 m0 key0 mode0 (c :: t) w o gw
                   Hsel0 Hk0 Hp); [discriminate | exact Htr].
        * apply pending_after_pop.
    - eexists. split.
      + apply (on_selection_no_text u0 q0 m0 key0 mode0 w Hsel0 Hk0).
        rewrite Hp. reflexivity.
      + apply pending_after_pop. }
  destruct H0 as (w1 & Hr & Hp1). exists w1. split; [exact Hr|].
  apply (on_selection_no_text u q m mode_key mode w1 Hsel Hk).
  rewrite Hu, Hp1. reflexivity.
Qed.

(** What a selection with a registered key does, whatever it finds: it
    returns normally and the user has no pending text afterwards. *)
Lemma on_selection_registered (u : Update) (q : CallbackQuery) (m : Message)
    (mode_key : pystr) (mode : ModeInfo) (w : World) :
  selection_event u q m mode_key ->
  dict_get mode_key ACTIVE_MODES = Some mode ->
  exists w' : World,
    on_selection u w = (Ok tt, w')
    /\ pending w' (user_id (effective_user u)) = None.
Proof.
  intros Hsel Hk.
  destruct (pending w (user_id (effective_user u))) as [[|c t]|] eqn:Hp.
  - eexists. split; [|apply pending_after_pop].
    apply (on_selection_no_text u q m mode_key mode w Hsel Hk).
    rewrite Hp. reflexivity.
  - destruct (translate_frame (c :: t) mode_key
                (world_at_call w (user_id (effective_user u)) q m mode))
      as (o & gw & Htr & _).
    eexists. split; [|apply pending_after_pop].
    apply (on_selection_outcome u q m mode_key mode (c :: t) w o gw Hsel Hk Hp);
      [discriminate | exact Htr].
  - eexists. split; [|apply pending_after_pop].
    apply (on_selection_no_text u q m mode_key mode w Hsel Hk).
    rewrite Hp. reflexivity.
Qed.

(** C2, amended.  After a selection whose mode key is registered the user
    has no pending text, whatever happened: a result was shown, the
    generation failed, or there was no text to start with.  (With a key
    that is not registered the store is left as it was, so the statement
    does not extend to every selection.) *)
Theorem registered_selection_clears_pending (u : Update) (q : CallbackQuery)
    (m : Message) (mode_key : pystr) (mode : ModeInfo) (w : World) :
  selection_event u q m mode_key ->
  dict_get mode_key ACTIVE_MODES = Some mode ->
  exists w' : World,
    on_selection u w = (Ok tt, w')
    /\ pending w' (user_id (effective_user u)) = None
    /\ user_dict w' (user_id (effective_user u)) !! ORIGINAL_TEXT = None.
Proof.
  intros Hsel Hk.
  destruct (on_selection_registered u q m mode_key mode w Hsel Hk) as (w' & Hr & Hp).
  exists w'. repeat split; assumption.
Qed.

(** A selection that finds the pending text [t] with the client in place:
    one request, built from the mode and [t]. *)
Lemma on_selection_ready (u : Update) (q : CallbackQuery) (m : Message)
    (mode_key : pystr) (mode : ModeInfo) (t : pystr) (client : Client) (w : World) :
  selection_event u q m mode_key ->
  dict_get mode_key ACTIVE_MODES = Some mode ->
  pending w (user_id (effective_user u)) = Some t ->
  t <> [] ->
  gemini_client w = Some client ->
  exists (w' : World) (evs : list Event),
    on_selection u w = (Ok tt, w')
    /\ trace w' = trace w ++ evs
    /\ gateway_calls evs =
         [EvGenerateContent SELECTED_GEMINI_MODEL (build_prompt (gemini_prompt mode) t)]
    /\ pending w' (user_id (effective_user u)) = None.
Proof.
  intros Hsel Hk Hp Hne Hc.
  destruct (translate_ready t mode_key
              (world_at_call w (user_id (effective_user u)) q m mode) client mode)
    as (o & logs & Htr & Hcalls & _); [exact Hc | exact Hk |].
  eexists. eexists. split.
  - apply (on_selection_outcome u q m mode_key mode t w o _ Hsel Hk Hp Hne Htr).
  - split; [reflexivity|]. split; [|apply pending_after_pop].
    rewrite !gateway_calls_app.
    destruct (final_render_is_render m mode o) as [_ ->].
    simpl. rewrite Hcalls. reflexivity.
Qed.

(** C1.  A user sends a non-empty text and then presses the button of a
    registered mode, while other users may be served in between.  Handling
    the selection sends exactly one request to the generation service, and
    its contents are the prompt built from that mode's template and that
    text.  (The client is in place, as it is whenever [main] started the
    bot.) *)
Theorem text_then_selection_one_gateway_call (u1 u2 : Update) (m1 m2 : Message)
    (q : CallbackQuery) (t mode_key : pystr) (mode : ModeInfo) (client : Client)
    (others : list (Handler * Update)) (w : World) :
  text_event u1 m1 t ->
  selection_event u2 q m2 mode_key ->
  user_id (effective_user u2) = user_id (effective_user u1) ->
  from_others (user_id (effective_user u1)) others ->
  dict_get mode_key ACTIVE_MODES = Some mode ->
  gemini_client w = Some client ->
  exists (w1 w2 w3 : World) (evs : list Event),
    handle_text_message u1 w = (Ok tt, w1)
    /\ run_updates generate_content others w1 = (Ok tt, w2)
    /\ on_selection u2 w2 = (Ok tt, w3)
    /\ trace w3 = trace w2 ++ evs
    /\ gateway_calls evs =
         [EvGenerateContent SELECTED_GEMINI_MODEL (build_prompt (gemini_prompt mode) t)].
Proof.
  intros Htxt Hsel Hu Hothers Hk Hc.
  pose proof (on_text u1 m1 t w Htxt) as H1.
  match type of H1 with _ = (_, ?x) => set (w1 := x) in * end.
  destruct (run_updates_of_others (user_id (effective_user u1)) others w1 Hothers)
    as (w2 & H2 & Hc2 & _ & Hp2).
  unfold w1 in Hp2.
  rewrite pending_after_setitem in Hp2.
  destruct (on_selection_ready u2 q m2 mode_key mode t client w2 Hsel Hk)
    as (w3 & evs & H3 & Htr & Hcalls & _).
  - rewrite Hu. exact Hp2.
  - apply Htxt.
  - rewrite Hc2. exact Hc.
  - exists w1, w2, w3, evs. repeat split; assumption.
Qed.

(** C5.  Two texts of one user before any selection, other users being
    served in between: both texts are accepted; after each, the pending text
    of the user is the text just sent; after the second, the user's
    dictionary is the one from before the first text with the second text
    as its one pending entry, so nothing of the first text is left; and the
    selection that follows sends one request, built from the second text. *)
Theorem second_text_overwrites_first (u1 u2 u3 : Update) (m1 m2 m3 : Message)
    (q : CallbackQuery) (t1 t2 mode_key : pystr) (mode : ModeInfo) (client : Client)
    (between1 between2 : list (Handler * Update)) (w : World) :
  text_event u1 m1 t1 ->
  text_event u2 m2 t2 ->
  selection_event u3 q m3 mode_key ->
  user_id (effective_user u2) = user_id (effective_user u1) ->
  user_id (effective_user u3) = user_id (effective_user u1) ->
  from_others (user_id (effective_user u1)) between1 ->
  from_others (user_id (effective_user u1)) between2 ->
  dict_get mode_key ACTIVE_MODES = Some mode ->
  gemini_client w = Some client ->
  exists (w1 w1' w2 w2' w3 : World) (evs : list Event),
    handle_text_message u1 w = (Ok tt, w1)
    /\ pending w1 (user_id (effective_user u1)) = Some t1
    /\ run_updates generate_content between1 w1 = (Ok tt, w1')
    /\ handle_text_message u2 w1' = (Ok tt, w2)
    /\ pending w2 (user_id (effective_user u1)) = Some t2
    /\ user_dict w2 (user_id (effective_user u1))
       = <[ORIGINAL_TEXT := t2]> (user_dict w (user_id (effective_user u1)))
    /\ run_updates generate_content between2 w2 = (Ok tt, w2')
    /\ on_selection u3 w2' = (Ok tt, w3)
    /\ trace w3 = trace w2' ++ evs
    /\ gateway_calls evs =
         [EvGenerateContent SELECTED_GEMINI_MODEL (build_prompt (gemini_prompt mode) t2)]
    /\ pending w3 (user_id (effective_user u1)) = None.
Proof.
  intros Ht1 Ht2 Hsel Hu2 Hu3 Hb1 Hb2 Hk Hc.
  pose proof (on_text u1 m1 t1 w Ht1) as H1.
  match type of H1 with _ = (_, ?x) => set (w1 := x) in * end.
  destruct (run_updates_of_others (user_id (effective_user u1)) between1 w1 Hb1)
    as (w1' & Hr1 & Hc1 & Hd1 & _).
  pose proof (on_text u2 m2 t2 w1' Ht2) as H2.
  match type of H2 with _ = (_, ?x) => set (w2 := x) in * end.
  destruct (run_updates_of_others (user_id (effective_user u1)) between2 w2 Hb2)
    as (w2' & Hr2 & Hc2 & _ & Hp2).
  assert (Hd2 : user_dict w2 (user_id (effective_user u1))
                = <[ORIGINAL_TEXT := t2]> (user_dict w (user_id (effective_user u1)))).
  { unfold w2. rewrite Hu2, user_dict_with_same, Hd1. unfold w1.
    rewrite user_dict_with_same. apply insert_insert_eq. }
  assert (Hpw2 : pending w2 (user_id (effective_user u1)) = Some t2).
  { unfold pending. rewrite Hd2. apply lookup_insert_eq. }
  destruct (on_selection_ready u3 q m3 mode_key mode t2 client w2' Hsel Hk)
    as (w3 & evs & H3 & Htr & Hcalls & Hp3).
  - rewrite Hu3, Hp2. exact Hpw2.
  - apply Ht2.
  - rewrite Hc2. unfold w2. simpl. rewrite Hc1. exact Hc.
  - exists w1, w1', w2, w2', w3, evs.
    split; [exact H1|]. split; [apply pending_after_setitem|].
    split; [exact Hr1|]. split; [exact H2|]. split; [exact Hpw2|].
    split; [exact Hd2|]. split; [exact Hr2|].
    split; [exact H3|]. split; [exact Htr|]. split; [exact Hcalls|].
    rewrite <- Hu3. exact Hp3.
Qed.

(** C6.  The gateway never raises: in every world, for every text and
    mode key, it returns.  With the client in place and a registered mode,
    a response that carries non-empty text gives that text without the
    white space at its ends; an exception of the service, a missing
    response, and a response whose text is missing or empty all give
    [None]. *)
Theorem gateway_never_raises (text mode_key : pystr) (w : World) :
  (exists (o : option pystr) (w' : World), translate text mode_key w = (Ok o, w'))
  /\ (forall (client : Client) (mode : ModeInfo),
        gemini_client w = Some client ->
        dict_get mode_key ACTIVE_MODES = Some mode ->
        (forall (resp : Response) (t : pystr),
            generate_content (trace w) SELECTED_GEMINI_MODEL
              (build_prompt (gemini_prompt mode) text) = SvcReturn (Some resp) ->
            response_text resp = Some t ->
            t <> [] ->
            fst (translate text mode_key w) = Ok (Some (strip t))
            /\ trimmed t (strip t))
        /\ (service_fails
              (generate_content (trace w) SELECTED_GEMINI_MODEL
                 (build_prompt (gemini_prompt mode) text)) ->
            fst (translate text mode_key w) = Ok None)).
Proof.
  split.
  - destruct (translate_frame text mode_key w) as (o & evs & Hr & _).
    exists o, (after_events w evs). exact Hr.
  - intros client mode Hc Hm. split.
    + intros resp t Hr Ht Hne.
      rewrite (translate_success _ _ _ _ _ _ _ Hc Hm Hr Ht Hne).
      split; [reflexivity | apply strip_trimmed].
    + intros Hf. destruct (translate_failure _ _ _ _ _ Hc Hm Hf) as (msg & ->).
      reflexivity.
Qed.

(** C7, amended.  Whatever makes the gateway fail during a selection with
    a registered key and a pending text (an exception of the service, a
    missing response, a response without text, or a client that was never
    set up), the gateway returns the one failure value [None] without
    raising, and the handler returns normally, its last render being the
    error message that names the label of the chosen mode. *)
Theorem gateway_failure_renders_mode_label (u : Update) (q : CallbackQuery)
    (m : Message) (mode_key : pystr) (mode : ModeInfo) (t : pystr) (w : World) :
  selection_event u q m mode_key ->
  dict_get mode_key ACTIVE_MODES = Some mode ->
  pending w (user_id (effective_user u)) = Some t ->
  t <> [] ->
  gemini_client w = None
  \/ service_fails
       (generate_content
          (trace (world_at_call w (user_id (effective_user u)) q m mode))
          SELECTED_GEMINI_MODEL (build_prompt (gemini_prompt mode) t)) ->
  fst (translate t mode_key (world_at_call w (user_id (effective_user u)) q m mode))
    = Ok None
  /\ exists (w' : World) (evs : list Event),
       on_selection u w = (Ok tt, w')
       /\ trace w' = trace w ++ evs
       /\ renders evs =
            [edit_event m (working_message (button_text mode)) None;
             edit_event m (error_message (button_text mode)) None]
       /\ occurs_in (button_text mode) (error_message (button_text mode)).
Proof.
  intros Hsel Hk Hp Hne Hfail.
  assert (Htr : exists gw,
    translate t mode_key (world_at_call w (user_id (effective_user u)) q m mode)
      = (Ok None,
         after_events (world_at_call w (user_id (effective_user u)) q m mode) gw)
    /\ renders gw = []).
  { destruct (gemini_client w) as [client|] eqn:Hc.
    - destruct Hfail as [Hfail|Hfail]; [discriminate|].
      destruct (translate_failure t mode_key
                  (world_at_call w (user_id (effective_user u)) q m mode)
                  client mode Hc Hk Hfail) as (msg & ->).
      eexists. split; reflexivity.
    - rewrite (translate_no_client t mode_key
                 (world_at_call w (user_id (effective_user u)) q m mode) Hc).
      eexists. split; reflexivity. }
  destruct Htr as (gw & Htr & Hgw). split; [rewrite Htr; reflexivity|].
  eexists. eexists. split.
  - apply (on_selection_outcome u q m mode_key mode t w None gw Hsel Hk Hp Hne Htr).
  - split; [reflexivity|]. split.
    + rewrite !renders_app, Hgw. reflexivity.
    + apply occurs_in_middle.
Qed.

(** C8.  In a selection with a registered key and a pending text, the
    working message is emitted before anything the gateway does: what the
    handler adds to the trace is the answer to the callback, the working
    message, then the events of the gateway (none of them a render; with
    the client in place the request to the service comes first among
    them), then one last render, the result or the error message.  So the
    renders are the working message followed by the result or the
    failure. *)
Theorem working_render_precedes_gateway_call (u : Update) (q : CallbackQuery)
    (m : Message) (mode_key : pystr) (mode : ModeInfo) (t : pystr) (w : World) :
  selection_event u q m mode_key ->
  dict_get mode_key ACTIVE_MODES = Some mode ->
  pending w (user_id (effective_user u)) = Some t ->
  t <> [] ->
  exists (w' : World) (o : option pystr) (gw : list Event),
    on_selection u w = (Ok tt, w')
    /\ translate t mode_key (world_at_call w (user_id (effective_user u)) q m mode)
         = (Ok o, after_events (world_at_call w (user_id (effective_user u)) q m mode) gw)
    /\ trace w' =
         trace w
         ++ [EvAnswer (query_id q);
             edit_event m (working_message (button_text mode)) None]
         ++ gw ++ [final_render m mode o]
    /\ renders gw = []
    /\ gateway_calls
         [EvAnswer (query_id q);
          edit_event m (working_message (button_text mode)) None] = []
    /\ gateway_calls [final_render m mode o] = []
    /\ renders
         ([EvAnswer (query_id q);
           edit_event m (working_message (button_text mode)) None]
          ++ gw ++ [final_render m mode o])
       = [edit_event m (working_message (button_text mode)) None;
          final_render m mode o]
    /\ (forall client : Client,
          gemini_client w = Some client ->
          exists logs : list Event,
            gw = EvGenerateContent SELECTED_GEMINI_MODEL
                   (build_prompt (gemini_prompt mode) t) :: logs
            /\ gateway_calls logs = []).
Proof.
  intros Hsel Hk Hp Hne.
  destruct (translate_frame t mode_key
              (world_at_call w (user_id (effective_user u)) q m mode))
    as (o & gw & Htr & Hgw & _).
  eexists. exists o, gw. split.
  - apply (on_selection_outcome u q m mode_key mode t w o gw Hsel Hk Hp Hne Htr).
  - split; [exact Htr|]. split; [reflexivity|]. split; [exact Hgw|].
    split; [reflexivity|].
    destruct (final_render_is_render m mode o) as [Hfr Hfc].
    split; [exact Hfc|]. split.
    + rewrite !renders_app, Hgw, Hfr. reflexivity.
    + intros client Hc.
      destruct (translate_ready t mode_key
                  (world_at_call w (user_id (effective_user u)) q m mode)
                  client mode Hc Hk) as (o' & logs & Htr' & Hlogs & _).
      rewrite Htr in Htr'. inversion Htr' as [[Ho Ht]].
      apply app_inv_head in Ht. exists logs. split; assumption.
Qed.

(** C10.  When the service answers with text that is not empty but is all
    white space, the gateway returns the empty string, not [None]; the
    handler then shows the error message naming the mode's label, not a
    result message. *)
Theorem blank_response_renders_error (u : Update) (q : CallbackQuery)
    (m : Message) (mode_key : pystr) (mode : ModeInfo) (t blank : pystr)
    (client : Client) (resp : Response) (w : World) :
  selection_event u q m mode_key ->
  dict_get mode_key ACTIVE_MODES = Some mode ->
  pending w (user_id (effective_user u)) = Some t ->
  t <> [] ->
  gemini_client w = Some client ->
  generate_content
    (trace (world_at_call w (user_id (effective_user u)) q m mode))
    SELECTED_GEMINI_MODEL (build_prompt (gemini_prompt mode) t)
    = SvcReturn (Some resp) ->
  response_text resp = Some blank ->
  blank <> [] ->
  forallb isspace blank = true ->
  fst (translate t mode_key (world_at_call w (user_id (effective_user u)) q m mode))
    = Ok (Some [])
  /\ exists w' : World,
       on_selection u w = (Ok tt, w')
       /\ trace w' =
            trace w
            ++ [EvAnswer (query_id q);
                edit_event m (working_message (button_text mode)) None;
                EvGenerateContent SELECTED_GEMINI_MODEL
                  (build_prompt (gemini_prompt mode) t);
                edit_event m (error_message (button_text mode)) None]
       /\ occurs_in (button_text mode) (error_message (button_text mode)).
Proof.
  intros Hsel Hk Hp Hne Hc Hr Ht Hb Hsp.
  pose proof (translate_success t mode_key
                (world_at_call w (user_id (effective_user u)) q m mode)
                client mode resp blank Hc Hk Hr Ht Hb) as Htr.
  rewrite (strip_blank blank Hsp) in Htr.
  split; [rewrite Htr; reflexivity|].
  eexists. split.
  - apply (on_selection_outcome u q m mode_key mode t w (Some []) _ Hsel Hk Hp Hne Htr).
  - split; [reflexivity | apply occurs_in_middle].
Qed.

End Properties.

(** ** Start-up *)

(** When [main] reaches polling, the client is in place; the handlers, which
    only run from there, keep it (see [serves]). *)
Lemma main_sets_client (token key : option pystr) (ctor : pystr -> Res Client)
    (w w' : World) :
  main token key ctor w = (Ok true, w') -> exists client, gemini_client w' = Some client.
Proof.
  unfold main. destruct (negb (truthy_opt token)); [intros H; inversion H|].
  destruct key as [k|]; [|intros H; inversion H].
  destruct (negb (truthy k)); [intros H; inversion H|].
  destruct (ctor k) as [client|e]; [|intros H; inversion H].
  intros H. inversion H. exists client. reflexivity.
Qed.

(** So in every world the running bot reaches, whatever updates it has
    processed, the client is in place. *)
Lemma running_bot_has_client
    (generate_content : list Event -> pystr -> pystr -> ServiceResult)
    (token key : option pystr) (ctor : pystr -> Res Client)
    (updates : list (Handler * Update)) (w0 w1 : World) :
  main token key ctor w0 = (Ok true, w1) ->
  exists (w : World) (client : Client),
    run_updates generate_content updates w1 = (Ok tt, w)
    /\ gemini_client w = Some client.
Proof.
  intros Hmain. destruct (main_sets_client token key ctor w0 w1 Hmain) as (client & Hc).
  destruct (run_updates_keep_client generate_content updates w1) as (w & Hr & Hg).
  exists w, client. split; [exact Hr | congruence].
Qed.

(** ** The properties at sample inputs *)

Lemma unknown_mode_touches_nothing_witness :
  selection_event (selection_update (py "zzz")) (sample_query (py "zzz"))
    keyboard_message (py "zzz")
  /\ dict_get (py "zzz") ACTIVE_MODES = None
  /\ exists (w' : World) (evs : list Event),
       handle_mode_selection service_raises (selection_update (py "zzz")) pending_world
         = (Ok tt, w')
       /\ trace w' = trace pending_world ++ evs
       /\ renders evs = [edit_event keyboard_message MSG_UNKNOWN_MODE None]
       /\ gateway_calls evs = []
       /\ user_data w' = user_data pending_world
       /\ pending w' (user_id (effective_user (selection_update (py "zzz"))))
          = pending pending_world (user_id (effective_user (selection_update (py "zzz"))))
       /\ (forall store : gmap Z (gmap pystr pystr),
             handle_mode_selection service_raises (selection_update (py "zzz"))
               (with_user_data pending_world store)
             = (Ok tt, with_user_data w' store)).
Proof.
  split; [repeat split; reflexivity|]. split; [vm_compute; reflexivity|].
  apply (unknown_mode_touches_nothing service_raises (selection_update (py "zzz"))
           (sample_query (py "zzz")) keyboard_message (py "zzz") pending_world).
  - repeat split; reflexivity.
  - vm_compute; reflexivity.
Defined.

Lemma selection_without_text_renders_no_text_witness :
  selection_event (selection_update to_slang) (sample_query to_slang)
    keyboard_message to_slang
  /\ dict_get to_slang ACTIVE_MODES = Some to_slang_info
  /\ pending ready_world 1 = None
  /\ exists (w' : World) (evs : list Event),
       handle_mode_selection service_raises (selection_update to_slang) ready_world
         = (Ok tt, w')
       /\ trace w' = trace ready_world ++ evs
       /\ renders evs = [edit_event keyboard_message MSG_NO_TEXT None]
       /\ gateway_calls evs = []
       /\ pending w' 1 = None.
Proof.
  split; [repeat split; reflexivity|]. split; [vm_compute; reflexivity|].
  split; [vm_compute; reflexivity|].
  apply (selection_without_text_renders_no_text service_raises
           (selection_update to_slang) (sample_query to_slang) keyboard_message
           to_slang to_slang_info ready_world).
  - repeat split; reflexivity.
  - vm_compute; reflexivity.
  - vm_compute; reflexivity.
Defined.

(** C2 as stated fails: [alice] has a pending text and presses a button
    whose key is not registered; afterwards the text is still pending. *)
Lemma unknown_mode_keeps_pending :
  selection_event (selection_update (py "zzz")) (sample_query (py "zzz"))
    keyboard_message (py "zzz")
  /\ fst (handle_mode_selection service_raises (selection_update (py "zzz"))
            pending_world) = Ok tt
  /\ pending
       (snd (handle_mode_selection service_raises (selection_update (py "zzz"))
               pending_world))
       (user_id alice) = Some (py "привет")
  /\ pending
       (snd (handle_mode_selection service_raises (selection_update (py "zzz"))
               pending_world))
       (user_id alice) <> None.
Proof.
  split; [repeat split; reflexivity|]. split; [vm_compute; reflexivity|].
  assert (H : pending
       (snd (handle_mode_selection service_raises (selection_update (py "zzz"))
               pending_world))
       (user_id alice) = Some (py "привет")) by (vm_compute; reflexivity).
  split; [exact H|]. rewrite H. discriminate.
Qed.

Lemma registered_selection_clears_pending_witness :
  selection_event (selection_update to_slang) (sample_query to_slang)
    keyboard_message to_slang
  /\ dict_get to_slang ACTIVE_MODES = Some to_slang_info
  /\ exists w' : World,
       handle_mode_selection service_raises (selection_update to_slang) pending_world
         = (Ok tt, w')
       /\ pending w' 1 = None
       /\ user_dict w' 1 !! ORIGINAL_TEXT = None.
Proof.
  split; [repeat split; reflexivity|]. split; [vm_compute; reflexivity|].
  apply (registered_selection_clears_pending service_raises
           (selection_update to_slang) (sample_query to_slang) keyboard_message
           to_slang to_slang_info pending_world).
  - repeat split; reflexivity.
  - vm_compute; reflexivity.
Defined.

Lemma text_then_selection_one_gateway_call_witness :
  text_event (text_update (py "привет")) (text_message (py "привет")) (py "привет")
  /\ from_others (user_id alice) [(OnText, bob_text)]
  /\ exists (w1 w2 w3 : World) (evs : list Event),
       handle_text_message (text_update (py "привет")) ready_world = (Ok tt, w1)
       /\ run_updates (service_returns slang_response) [(OnText, bob_text)] w1 = (Ok tt, w2)
       /\ handle_mode_selection (service_returns slang_response)
            (selection_update to_slang) w2 = (Ok tt, w3)
       /\ trace w3 = trace w2 ++ evs
       /\ gateway_calls evs =
            [EvGenerateContent SELECTED_GEMINI_MODEL
               (build_prompt (gemini_prompt to_slang_info) (py "привет"))].
Proof.
  split; [repeat split; try reflexivity; vm_compute; discriminate|].
  split; [repeat constructor; vm_compute; discriminate|].
  apply (text_then_selection_one_gateway_call (service_returns slang_response)
           (text_update (py "привет")) (selection_update to_slang)
           (text_message (py "привет")) keyboard_message (sample_query to_slang)
           (py "привет") to_slang to_slang_info sample_client
           [(OnText, bob_text)] ready_world).
  - repeat split; try reflexivity. vm_compute. discriminate.
  - repeat split; reflexivity.
  - reflexivity.
  - repeat constructor. vm_compute. discriminate.
  - vm_compute; reflexivity.
  - reflexivity.
Defined.

Lemma second_text_overwrites_first_witness :
  from_others (user_id alice) [(OnText, bob_text)]
  /\ exists (w1 w1' w2 w2' w3 : World) (evs : list Event),
       handle_text_message (text_update (py "привет")) ready_world = (Ok tt, w1)
       /\ pending w1 1 = Some (py "привет")
       /\ run_updates (service_returns slang_response) [(OnText, bob_text)] w1
          = (Ok tt, w1')
       /\ handle_text_message (text_update (py "пока")) w1' = (Ok tt, w2)
       /\ pending w2 1 = Some (py "пока")
       /\ user_dict w2 1 = <[ORIGINAL_TEXT := py "пока"]> (user_dict ready_world 1)
       /\ run_updates (service_returns slang_response) [] w2 = (Ok tt, w2')
       /\ handle_mode_selection (service_returns slang_response)
            (selection_update to_slang) w2' = (Ok tt, w3)
       /\ trace w3 = trace w2' ++ evs
       /\ gateway_calls evs =
            [EvGenerateContent SELECTED_GEMINI_MODEL
               (build_prompt (gemini_prompt to_slang_info) (py "пока"))]
       /\ pending w3 1 = None.
Proof.
  split; [repeat constructor; vm_compute; discriminate|].
  apply (second_text_overwrites_first (service_returns slang_response)
           (text_update (py "привет")) (text_update (py "пока"))
           (selection_update to_slang)
           (text_message (py "привет")) (text_message (py "пока")) keyboard_message
           (sample_query to_slang) (py "привет") (py "пока") to_slang to_slang_info
           sample_client [(OnText, bob_text)] [] ready_world).
  - repeat split; try reflexivity. vm_compute. discriminate.
  - repeat split; try reflexivity. vm_compute. discriminate.
  - repeat split; reflexivity.
  - reflexivity.
  - reflexivity.
  - repeat constructor. vm_compute. discriminate.
  - constructor.
  - vm_compute; reflexivity.
  - reflexivity.
Defined.

Lemma gateway_never_raises_witness :
  gemini_client ready_world = Some sample_client
  /\ dict_get to_slang ACTIVE_MODES = Some to_slang_info
  /\ fst (translate_text_with_gemini (service_returns slang_response)
            (py "привет") to_slang ready_world) = Ok (Some (py "йоу"))
  /\ fst (translate_text_with_gemini service_raises (py "привет") to_slang ready_world)
     = Ok None.
Proof.
  split; [reflexivity|]. split; [vm_compute; reflexivity|]. split.
  - destruct (gateway_never_raises (service_returns slang_response)
                (py "привет") to_slang ready_world) as [_ H].
    destruct (H sample_client to_slang_info) as [Hs _];
      [reflexivity | vm_compute; reflexivity |].
    destruct (Hs slang_response (py " йоу ")) as [Heq _];
      [reflexivity | reflexivity | vm_compute; discriminate |].
    rewrite Heq. vm_compute. reflexivity.
  - destruct (gateway_never_raises service_raises
                (py "привет") to_slang ready_world) as [_ H].
    destruct (H sample_client to_slang_info) as [_ Hf];
      [reflexivity | vm_compute; reflexivity |].
    apply Hf. exact I.
Defined.

(** C7 as stated fails: an exception of the service and a response without
    text are failures of different kinds, and the gateway turns both into
    the same value [None]; the handler shows the same renders for both. *)
Lemma failure_kinds_not_distinguished :
  service_raises [] SELECTED_GEMINI_MODEL
      (build_prompt (gemini_prompt to_slang_info) (py "привет"))
    <> service_no_text [] SELECTED_GEMINI_MODEL
         (build_prompt (gemini_prompt to_slang_info) (py "привет"))
  /\ fst (translate_text_with_gemini service_raises (py "привет") to_slang ready_world)
     = Ok None
  /\ fst (translate_text_with_gemini service_no_text (py "привет") to_slang ready_world)
     = Ok None
  /\ fst (translate_text_with_gemini service_raises (py "привет") to_slang ready_world)
     = fst (translate_text_with_gemini service_no_text (py "привет") to_slang ready_world)
  /\ renders (trace (snd (handle_mode_selection service_raises
                            (selection_update to_slang) pending_world)))
     = renders (trace (snd (handle_mode_selection service_no_text
                              (selection_update to_slang) pending_world))).
Proof.
  split; [discriminate|]. repeat split; vm_compute; reflexivity.
Qed.

Lemma gateway_failure_renders_mode_label_witness :
  pending pending_world 1 = Some (py "привет")
  /\ service_fails
       (service_raises
          (trace (world_at_call pending_world 1 (sample_query to_slang)
                    keyboard_message to_slang_info))
          SELECTED_GEMINI_MODEL
          (build_prompt (gemini_prompt to_slang_info) (py "привет")))
  /\ fst (translate_text_with_gemini service_raises (py "привет") to_slang
            (world_at_call pending_world 1 (sample_query to_slang)
               keyboard_message to_slang_info)) = Ok None
  /\ exists (w' : World) (evs : list Event),
       handle_mode_selection service_raises (selection_update to_slang) pending_world
         = (Ok tt, w')
       /\ trace w' = trace pending_world ++ evs
       /\ renders evs =
            [edit_event keyboard_message
               (working_message (button_text to_slang_info)) None;
             edit_event keyboard_message
               (error_message (button_text to_slang_info)) None]
       /\ occurs_in (button_text to_slang_info)
            (error_message (button_text to_slang_info)).
Proof.
  split; [vm_compute; reflexivity|]. split; [exact I|].
  apply (gateway_failure_renders_mode_label service_raises
           (selection_update to_slang) (sample_query to_slang) keyboard_message
           to_slang to_slang_info (py "привет") pending_world).
  - repeat split; reflexivity.
  - vm_compute; reflexivity.
  - vm_compute; reflexivity.
  - vm_compute; discriminate.
  - right. exact I.
Defined.

Lemma working_render_precedes_gateway_call_witness :
  exists (w' : World) (o : option pystr) (gw : list Event),
    handle_mode_selection (service_returns slang_response)
      (selection_update to_slang) pending_world = (Ok tt, w')
    /\ trace w' =
         [EvAnswer 5;
          edit_event keyboard_message (working_message (button_text to_slang_info)) None]
         ++ gw ++ [final_render keyboard_message to_slang_info o]
    /\ renders gw = [].
Proof.
  destruct (working_render_precedes_gateway_call (service_returns slang_response)
              (selection_update to_slang) (sample_query to_slang) keyboard_message
              to_slang to_slang_info (py "привет") pending_world)
    as (w' & o & gw & Hr & _ & Htr & Hgw & _).
  - repeat split; reflexivity.
  - vm_compute; reflexivity.
  - vm_compute; reflexivity.
  - vm_compute; discriminate.
  - exists w', o, gw. split; [exact Hr|]. split; [exact Htr | exact Hgw].
Defined.

Lemma blank_response_renders_error_witness :
  response_text blank_response = Some (py "  ")
  /\ forallb isspace (py "  ") = true
  /\ fst (translate_text_with_gemini (service_returns blank_response) (py "привет")
            to_slang
            (world_at_call pending_world 1 (sample_query to_slang)
               keyboard_message to_slang_info)) = Ok (Some [])
  /\ exists w' : World,
       handle_mode_selection (service_returns blank_response)
         (selection_update to_slang) pending_world = (Ok tt, w')
       /\ trace w' =
            trace pending_world
            ++ [EvAnswer 5;
                edit_event keyboard_message
                  (working_message (button_text to_slang_info)) None;
                EvGenerateContent SELECTED_GEMINI_MODEL
                  (build_prompt (gemini_prompt to_slang_info) (py "привет"));
                edit_event keyboard_message
                  (error_message (button_text to_slang_info)) None]
       /\ occurs_in (button_text to_slang_info)
            (error_message (button_text to_slang_info)).
Proof.
  split; [reflexivity|]. split; [vm_compute; reflexivity|].
  apply (blank_response_renders_error (service_returns blank_response)
           (selection_update to_slang) (sample_query to_slang) keyboard_message
           to_slang to_slang_info (py "привет") (py "  ") sample_client
           blank_response pending_world).
  - repeat split; reflexivity.
  - vm_compute; reflexivity.
  - vm_compute; reflexivity.
  - vm_compute; discriminate.
  - reflexivity.
  - reflexivity.
  - reflexivity.
  - vm_compute; discriminate.
  - vm_compute; reflexivity.
Defined.

(** ** Two runs of the bot *)

(** A text, then the button of a registered mode, the service answering
    " йоу ": the keyboard, the answer to the callback, the working message,
    the request, the result with the answer stripped. *)
Example run_text_then_selection :
  trace (snd (run_updates (service_returns slang_response)
                [(OnText, text_update (py "привет"));
                 (OnSelection, selection_update to_slang)]
                ready_world))
  = [EvReplyText 1 MSG_CHOOSE
       (Some [[ {| ikb_text := py "Сленг 🧢 → Понятно 🧐";
                   callback_data := py "mode_slang_to_standard_russian" |};
                {| ikb_text := py "Понятно 🧐 → Сленг 🧢";
                   callback_data := py "mode_standard_russian_to_slang" |} ]]);
     EvAnswer 5;
     edit_event keyboard_message (working_message (button_text to_slang_info)) None;
     EvGenerateContent SELECTED_GEMINI_MODEL
       (build_prompt (gemini_prompt to_slang_info) (py "привет"));
     edit_event keyboard_message (result_message (py "йоу")) (Some (py "Markdown"))].
Proof. vm_compute. reflexivity. Qed.

(** The same with a service that raises: the exception is logged and the
    error message names the mode. *)
Example run_text_then_selection_failing :
  run_updates service_raises
    [(OnText, text_update (py "привет")); (OnSelection, selection_update to_slang)]
    ready_world
  = (Ok tt,
     {| gemini_client := Some sample_client;
        user_data := {[ 1%Z := ∅ ]};
        trace :=
          [EvReplyText 1 MSG_CHOOSE (Some build_translation_mode_keyboard);
           EvAnswer 5;
           edit_event keyboard_message (working_message (button_text to_slang_info)) None;
           EvGenerateContent SELECTED_GEMINI_MODEL
             (build_prompt (gemini_prompt to_slang_info) (py "привет"));
           EvLog ERROR
             (py "Критическая ошибка при запросе к Gemini API: 503 UNAVAILABLE");
           edit_event keyboard_message (error_message (button_text to_slang_info)) None]
     |}).
Proof. vm_compute. reflexivity. Qed.

(** ** Further properties of the handlers *)

Lemma lstrip_fixed (s : pystr) :
  (forall c r, s = c :: r -> isspace c = false) -> lstrip s = s.
Proof.
  destruct s as [|c r]; [reflexivity|]. intros H. simpl.
  rewrite (H c r eq_refl). reflexivity.
Qed.

Lemma strip_idempotent (s : pystr) : strip (strip s) = strip s.
Proof.
  destruct (strip_spec s) as (_ & _ & _ & _ & _ & Hhd & Hlast).
  unfold strip at 1. rewrite (lstrip_fixed (strip s) Hhd).
  unfold rstrip. rewrite lstrip_fixed; [apply rev_involutive|].
  intros c r Heq. apply (Hlast (rev r) c).
  rewrite <- (rev_involutive (strip s)), Heq. reflexivity.
Qed.

Lemma strip_nil_blank (s : pystr) : strip s = [] -> forallb isspace s = true.
Proof.
  intros H. destruct (strip_spec s) as (l & r & Hs & Hl & Hr & _).
  rewrite H in Hs. simpl in Hs. rewrite Hs, forallb_app, Hl, Hr. reflexivity.
Qed.

Section Further.

Variable generate_content : list Event -> pystr -> pystr -> ServiceResult.

Abbreviation translate := (translate_text_with_gemini generate_content).
Abbreviation on_selection := (handle_mode_selection generate_content).

(** X1.  An update without a message, or whose message has no text or an
    empty one, is ignored by the text handler: nothing is rendered and the
    store is as before, so a text that was pending stays pending. *)
Theorem text_handler_ignores_empty (u : Update) (w : World) :
  no_text_content u ->
  handle_text_message u w = (Ok tt, w)
  /\ pending (snd (handle_text_message u w)) (user_id (effective_user u))
     = pending w (user_id (effective_user u)).
Proof.
  unfold no_text_content, handle_text_message. intros H.
  destruct (message u) as [m|]; [|split; reflexivity].
  destruct (message_text m) as [t|]; [|split; reflexivity].
  simpl in H. rewrite H. split; reflexivity.
Qed.

(** X2.  A callback without data, with empty data, or without the message
    it belongs to is ignored by the selection handler: it is not even
    answered, nothing is rendered, the pending text is not consumed and no
    request is sent. *)
Theorem selection_handler_ignores_incomplete (u : Update) (w : World) :
  incomplete_callback u ->
  on_selection u w = (Ok tt, w).
Proof.
  unfold incomplete_callback, handle_mode_selection. intros H.
  destruct (callback_query u) as [q|]; [|reflexivity].
  destruct (query_data q) as [d|]; destruct (query_message q) as [m|];
    try reflexivity.
  destruct H as [H|H]; [|discriminate]. simpl in H. rewrite H. reflexivity.
Qed.

(** X3.  The start command of a user, sent as a message, greets with the
    user's mention and empties the user's dictionary: whatever was pending
    is dropped, no request is sent.  Without a message the command does
    nothing; in particular it does not clear the store. *)
Theorem start_command_resets (u : Update) (w : World) :
  (forall m : Message,
      message u = Some m ->
      exists w' : World,
        start_command u w = (Ok tt, w')
        /\ trace w' =
             trace w ++ [EvReplyHtml (chat_id m) (greeting (mention_html (effective_user u)))]
        /\ occurs_in (mention_html (effective_user u))
             (greeting (mention_html (effective_user u)))
        /\ user_dict w' (user_id (effective_user u)) = ∅
        /\ pending w' (user_id (effective_user u)) = None
        /\ gemini_client w' = gemini_client w)
  /\ (message u = None -> start_command u w = (Ok tt, w)).
Proof.
  split.
  - intros m Hm. unfold start_command. rewrite Hm.
    exists (with_user_dict
              (after_events w
                 [EvReplyHtml (chat_id m) (greeting (mention_html (effective_user u)))])
              (user_id (effective_user u)) ∅).
    split; [reflexivity|]. split; [reflexivity|].
    split; [apply occurs_in_middle|].
    split; [apply user_dict_with_same|]. split; [|reflexivity].
    unfold pending. rewrite user_dict_with_same. apply lookup_empty.
  - intros Hm. unfold start_command. rewrite Hm. reflexivity.
Qed.

(** X4.  Without a client, or for a mode key that is not registered, the
    gateway gives up before the service is contacted: it returns [None],
    sends no request and only writes one log record; the store and the
    client are as before. *)
Theorem gateway_unready_sends_nothing (text mode_key : pystr) (w : World) :
  gemini_client w = None \/ dict_get mode_key ACTIVE_MODES = None ->
  exists (w' : World) (level : LogLevel) (msg : pystr),
    translate text mode_key w = (Ok None, w')
    /\ trace w' = trace w ++ [EvLog level msg]
    /\ gateway_calls [EvLog level msg] = []
    /\ user_data w' = user_data w
    /\ gemini_client w' = gemini_client w.
Proof.
  intros H. destruct (gemini_client w) as [client|] eqn:Hc.
  - destruct H as [H|H]; [discriminate|].
    rewrite (translate_unknown_mode generate_content text mode_key w client Hc H).
    do 3 eexists. repeat split; try reflexivity. exact Hc.
  - rewrite (translate_no_client generate_content text mode_key w Hc).
    do 3 eexists. repeat split; try reflexivity. exact Hc.
Qed.

(** X5.  What the gateway returns as text is always the stripped text of a
    response of the service to the prompt of a registered mode: it neither
    starts nor ends with white space, stripping it again changes nothing,
    and it is empty exactly when the response was white space only. *)
Theorem gateway_result_is_stripped (text mode_key s : pystr) (w : World) :
  fst (translate text mode_key w) = Ok (Some s) ->
  exists (mode : ModeInfo) (resp : Response) (t : pystr),
    dict_get mode_key ACTIVE_MODES = Some mode
    /\ generate_content (trace w) SELECTED_GEMINI_MODEL
         (build_prompt (gemini_prompt mode) text) = SvcReturn (Some resp)
    /\ response_text resp = Some t
    /\ t <> []
    /\ s = strip t
    /\ trimmed t s
    /\ strip s = s
    /\ (s = [] <-> forallb isspace t = true).
Proof.
  intros H. destruct (gemini_client w) as [client|] eqn:Hc.
  - destruct (dict_get mode_key ACTIVE_MODES) as [mode|] eqn:Hm.
    + destruct (service_answer_cases
                  (generate_content (trace w) SELECTED_GEMINI_MODEL
                     (build_prompt (gemini_prompt mode) text)))
        as [(resp & t & Hr & Ht & Hne) | Hf].
      * rewrite (translate_success generate_content _ _ _ _ _ _ _ Hc Hm Hr Ht Hne) in H.
        simpl in H. inversion H as [Hs].
        exists mode, resp, t. repeat split; auto.
        -- apply strip_trimmed.
        -- apply strip_idempotent.
        -- apply strip_nil_blank.
        -- apply strip_blank.
      * destruct (translate_failure generate_content _ _ _ _ _ Hc Hm Hf) as (msg & Heq).
        rewrite Heq in H. discriminate.
    + rewrite (translate_unknown_mode generate_content _ _ _ _ Hc Hm) in H. discriminate.
  - rewrite (translate_no_client generate_content _ _ _ Hc) in H. discriminate.
Qed.

(** X6.  The success path, event by event.  A selection with a registered
    key finds the pending text, the client is in place and the service
    answers with text that is not white space only: the handler answers the
    callback, shows the working message, sends the one request, and ends
    with the result message, in Markdown, that holds the stripped answer;
    the pending text is consumed. *)
Theorem successful_selection_trace (u : Update) (q : CallbackQuery) (m : Message)
    (mode_key : pystr) (mode : ModeInfo) (t answer_text : pystr) (client : Client)
    (resp : Response) (w : World) :
  selection_event u q m mode_key ->
  dict_get mode_key ACTIVE_MODES = Some mode ->
  pending w (user_id (effective_user u)) = Some t ->
  t <> [] ->
  gemini_client w = Some client ->
  generate_content
    (trace (world_at_call w (user_id (effective_user u)) q m mode))
    SELECTED_GEMINI_MODEL (build_prompt (gemini_prompt mode) t)
    = SvcReturn (Some resp) ->
  response_text resp = Some answer_text ->
  forallb isspace answer_text = false ->
  exists w' : World,
    on_selection u w = (Ok tt, w')
    /\ trace w' =
         trace w
         ++ [EvAnswer (query_id q);
             edit_event m (working_message (button_text mode)) None;
             EvGenerateContent SELECTED_GEMINI_MODEL
               (build_prompt (gemini_prompt mode) t);
             edit_event m (result_message (strip answer_text)) (Some (py "Markdown"))]
    /\ occurs_in (strip answer_text) (result_message (strip answer_text))
    /\ strip answer_text <> []
    /\ pending w' (user_id (effective_user u)) = None.
Proof.
  intros Hsel Hk Hp Hne Hc Hr Ht Hsp.
  assert (Ha : answer_text <> []).
  { intros ->. discriminate. }
  assert (Hs : strip answer_text <> []).
  { intros Hnil. apply strip_nil_blank in Hnil. congruence. }
  pose proof (translate_success generate_content t mode_key
                (world_at_call w (user_id (effective_user u)) q m mode)
                client mode resp answer_text Hc Hk Hr Ht Ha) as Htr.
  eexists. split.
  - apply (on_selection_outcome generate_content u q m mode_key mode t w
             (Some (strip answer_text)) _ Hsel Hk Hp Hne Htr).
  - split.
    + simpl. destruct (strip answer_text) as [|c r] eqn:E; [congruence|]. reflexivity.
    + split; [|split; [exact Hs | apply pending_after_pop]].
      unfold result_message.
      exists (py "🧐 *Результат*:" ++ LF ++ LF),
             (LF ++ LF ++ py "➖➖➖➖➖" ++ LF ++ py "Отправьте новый текст, если нужно.").
      rewrite <- !app_assoc. reflexivity.
Qed.

(** What the start command does to the world when it comes as a message. *)
Lemma on_start (u : Update) (m : Message) (w : World) :
  message u = Some m ->
  start_command u w =
    (Ok tt,
     with_user_dict
       (after_events w
          [EvReplyHtml (chat_id m) (greeting (mention_html (effective_user u)))])
       (user_id (effective_user u)) ∅).
Proof. intros Hm. unfold start_command. rewrite Hm. reflexivity. Qed.

(** X7.  A reset drops the pending text for good: after a text, a start
    command and then the button of a registered mode, with other users
    served in between, the selection shows the no-text error and sends
    nothing to the service. *)
Theorem reset_then_selection_finds_no_text (u1 u2 u3 : Update) (m1 m2 m3 : Message)
    (q : CallbackQuery) (t mode_key : pystr) (mode : ModeInfo)
    (between1 between2 : list (Handler * Update)) (w : World) :
  text_event u1 m1 t ->
  message u2 = Some m2 ->
  selection_event u3 q m3 mode_key ->
  user_id (effective_user u2) = user_id (effective_user u1) ->
  user_id (effective_user u3) = user_id (effective_user u1) ->
  from_others (user_id (effective_user u1)) between1 ->
  from_others (user_id (effective_user u1)) between2 ->
  dict_get mode_key ACTIVE_MODES = Some mode ->
  exists (w1 w1' w2 w2' w3 : World) (evs : list Event),
    handle_text_message u1 w = (Ok tt, w1)
    /\ pending w1 (user_id (effective_user u1)) = Some t
    /\ run_updates generate_content between1 w1 = (Ok tt, w1')
    /\ start_command u2 w1' = (Ok tt, w2)
    /\ run_updates generate_content between2 w2 = (Ok tt, w2')
    /\ on_selection u3 w2' = (Ok tt, w3)
    /\ trace w3 = trace w2' ++ evs
    /\ renders evs = [edit_event m3 MSG_NO_TEXT None]
    /\ gateway_calls evs = [].
Proof.
  intros Ht Hm2 Hsel Hu2 Hu3 Hb1 Hb2 Hk.
  pose proof (on_text u1 m1 t w Ht) as H1.
  match type of H1 with _ = (_, ?x) => set (w1 := x) in * end.
  destruct (run_updates_of_others generate_content (user_id (effective_user u1))
              between1 w1 Hb1) as (w1' & Hr1 & _).
  pose proof (on_start u2 m2 w1' Hm2) as H2.
  match type of H2 with _ = (_, ?x) => set (w2 := x) in * end.
  destruct (run_updates_of_others generate_content (user_id (effective_user u1))
              between2 w2 Hb2) as (w2' & Hr2 & _ & _ & Hp2).
  assert (Hp : pending w2' (user_id (effective_user u3)) = None).
  { rewrite Hu3, Hp2. unfold w2, pending. rewrite Hu2, user_dict_with_same.
    apply lookup_empty. }
  pose proof (on_selection_no_text generate_content u3 q m3 mode_key mode w2' Hsel Hk)
    as H3.
  rewrite Hp in H3. specialize (H3 eq_refl).
  eexists w1, w1', w2, w2', _, _.
  split; [exact H1|]. split; [apply pending_after_setitem|].
  split; [exact Hr1|]. split; [exact H2|]. split; [exact Hr2|].
  split; [exact H3|]. repeat split.
Qed.

(** X8.  A press on a button whose key is not registered does not cost the
    user the pending text: the selection with a registered key that follows
    still sends one request, built from that text. *)
Theorem unknown_key_keeps_text_for_next (u1 u2 : Update) (q1 q2 : CallbackQuery)
    (m1 m2 : Message) (bad_key mode_key t : pystr) (mode : ModeInfo)
    (client : Client) (w : World) :
  selection_event u1 q1 m1 bad_key ->
  dict_get bad_key ACTIVE_MODES = None ->
  selection_event u2 q2 m2 mode_key ->
  dict_get mode_key ACTIVE_MODES = Some mode ->
  user_id (effective_user u2) = user_id (effective_user u1) ->
  pending w (user_id (effective_user u1)) = Some t ->
  t <> [] ->
  gemini_client w = Some client ->
  exists (w1 w2 : World) (evs1 evs2 : list Event),
    on_selection u1 w = (Ok tt, w1)
    /\ trace w1 = trace w ++ evs1
    /\ gateway_calls evs1 = []
    /\ pending w1 (user_id (effective_user u1)) = Some t
    /\ on_selection u2 w1 = (Ok tt, w2)
    /\ trace w2 = trace w1 ++ evs2
    /\ gateway_calls evs2 =
         [EvGenerateContent SELECTED_GEMINI_MODEL (build_prompt (gemini_prompt mode) t)]
    /\ pending w2 (user_id (effective_user u1)) = None.
Proof.
  intros Hs1 Hk1 Hs2 Hk2 Hu Hp Hne Hc.
  pose proof (on_selection_unknown generate_content u1 q1 m1 bad_key w Hs1 Hk1) as H1.
  match type of H1 with _ = (_, ?x) => set (w1 := x) in * end.
  destruct (on_selection_ready generate_content u2 q2 m2 mode_key mode t client w1
              Hs2 Hk2) as (w2 & evs2 & H2 & Htr & Hcalls & Hp2).
  - rewrite Hu. exact Hp.
  - exact Hne.
  - exact Hc.
  - exists w1, w2, [EvAnswer (query_id q1); edit_event m1 MSG_UNKNOWN_MODE None], evs2.
    split; [exact H1|]. split; [reflexivity|]. split; [reflexivity|].
    split; [exact Hp|]. split; [exact H2|]. split; [exact Htr|].
    split; [exact Hcalls|]. rewrite <- Hu. exact Hp2.
Qed.

(** X9.  A pending text is used once.  Of two selections with registered
    keys by the same user, other users being served in between, the first
    sends one request built from the text and the second, finding nothing,
    shows the no-text error and sends none. *)
Theorem pending_text_is_used_once (u1 u2 : Update) (q1 q2 : CallbackQuery)
    (m1 m2 : Message) (key1 key2 t : pystr) (mode1 mode2 : ModeInfo)
    (client : Client) (between : list (Handler * Update)) (w : World) :
  selection_event u1 q1 m1 key1 ->
  dict_get key1 ACTIVE_MODES = Some mode1 ->
  selection_event u2 q2 m2 key2 ->
  dict_get key2 ACTIVE_MODES = Some mode2 ->
  user_id (effective_user u2) = user_id (effective_user u1) ->
  from_others (user_id (effective_user u1)) between ->
  pending w (user_id (effective_user u1)) = Some t ->
  t <> [] ->
  gemini_client w = Some client ->
  exists (w1 w1' w2 : World) (evs1 evs2 : list Event),
    on_selection u1 w = (Ok tt, w1)
    /\ trace w1 = trace w ++ evs1
    /\ gateway_calls evs1 =
         [EvGenerateContent SELECTED_GEMINI_MODEL (build_prompt (gemini_prompt mode1) t)]
    /\ run_updates generate_content between w1 = (Ok tt, w1')
    /\ on_selection u2 w1' = (Ok tt, w2)
    /\ trace w2 = trace w1' ++ evs2
    /\ renders evs2 = [edit_event m2 MSG_NO_TEXT None]
    /\ gateway_calls evs2 = [].
Proof.
  intros Hs1 Hk1 Hs2 Hk2 Hu Hb Hp Hne Hc.
  destruct (on_selection_ready generate_content u1 q1 m1 key1 mode1 t client w
              Hs1 Hk1 Hp Hne Hc) as (w1 & evs1 & H1 & Htr1 & Hcalls1 & Hp1).
  destruct (run_updates_of_others generate_content (user_id (effective_user u1))
              between w1 Hb) as (w1' & Hr & _ & _ & Hp1').
  pose proof (on_selection_no_text generate_content u2 q2 m2 key2 mode2 w1' Hs2 Hk2)
    as H2.
  rewrite Hu, Hp1', Hp1 in H2. specialize (H2 eq_refl).
  eexists w1, w1', _, evs1, _.
  split; [exact H1|]. split; [exact Htr1|]. split; [exact Hcalls1|].
  split; [exact Hr|]. split; [exact H2|]. repeat split.
Qed.

(** *** What a handler sends out *)


















(** *** Users are kept apart *)


(** *** The store stays well formed *)

Lemma store_wf_after_events (w : World) (evs : list Event) :
  store_wf w -> store_wf (after_events w evs).
Proof. intros H. exact H. Qed.

Lemma store_wf_with_user_dict (w : World) (uid : Z) (d : gmap pystr pystr) :
  store_wf w ->
  (forall k v, d !! k = Some v -> k = ORIGINAL_TEXT /\ v <> []) ->
  store_wf (with_user_dict w uid d).
Proof.
  intros Hw Hd uid' k v. unfold user_dict, with_user_dict. simpl.
  destruct (decide (uid = uid')) as [->|Hne].
  - rewrite lookup_insert_eq. simpl. apply Hd.
  - rewrite lookup_insert_ne by exact Hne. apply Hw.
Qed.

Lemma keeps_store_ret {A : Type} (a : A) : keeps_store store_wf (ret a).
Proof. intros w Hw. exists a, w. auto. Qed.

Lemma keeps_store_bind {A B : Type} (c : M A) (k : A -> M B) :
  keeps_store store_wf c -> (forall a, keeps_store store_wf (k a)) ->
  keeps_store store_wf (bind c k).
Proof.
  intros Hc Hk w Hw. destruct (Hc w Hw) as (a & w1 & Hr1 & Hw1).
  destruct (Hk a w1 Hw1) as (b & w2 & Hr2 & Hw2).
  exists b, w2. unfold bind. rewrite Hr1, Hr2. auto.
Qed.

Lemma keeps_store_emit (e : Event) : keeps_store store_wf (emit e).
Proof. intros w Hw. exists tt, (after_events w [e]). auto. Qed.

Lemma keeps_store_setitem (uid : Z) (t : pystr) :
  t <> [] -> keeps_store store_wf (user_data_setitem uid ORIGINAL_TEXT t).
Proof.
  intros Hne w Hw.
  exists tt, (with_user_dict w uid (<[ORIGINAL_TEXT := t]> (user_dict w uid))).
  split; [reflexivity|]. apply store_wf_with_user_dict; [exact Hw|].
  intros k v. destruct (decide (ORIGINAL_TEXT = k)) as [<-|Hk].
  - rewrite lookup_insert_eq. intros [= <-]. auto.
  - rewrite lookup_insert_ne by exact Hk. apply Hw.
Qed.

Lemma keeps_store_pop (uid : Z) (key : pystr) :
  keeps_store store_wf (user_data_pop uid key).
Proof.
  intros w Hw.
  exists (user_dict w uid !! key), (with_user_dict w uid (delete key (user_dict w uid))).
  split; [reflexivity|]. apply store_wf_with_user_dict; [exact Hw|].
  intros k v Hl. apply lookup_delete_Some in Hl. destruct Hl as [_ Hl].
  exact (Hw uid k v Hl).
Qed.

Lemma keeps_store_clear (uid : Z) : keeps_store store_wf (user_data_clear uid).
Proof.
  intros w Hw. exists tt, (with_user_dict w uid ∅). split; [reflexivity|].
  apply store_wf_with_user_dict; [exact Hw|].
  intros k v Hl. rewrite lookup_empty in Hl. discriminate.
Qed.

Lemma keeps_store_translate (text mode_key : pystr) :
  keeps_store store_wf (translate text mode_key).
Proof.
  intros w Hw.
  destruct (translate_frame generate_content text mode_key w) as (o & evs & Hr & _).
  exists o, (after_events w evs). auto.
Qed.

Lemma keeps_store_run_handler (h : Handler) (u : Update) :
  keeps_store store_wf (run_handler generate_content h u).
Proof.
  destruct h; simpl.
  - unfold start_command. destruct (message u) as [m|]; [|apply keeps_store_ret].
    apply keeps_store_bind; [apply keeps_store_emit|]. intros _. apply keeps_store_clear.
  - unfold handle_text_message. destruct (message u) as [m|]; [|apply keeps_store_ret].
    destruct (message_text m) as [t|]; [|apply keeps_store_ret].
    destruct (truthy t) eqn:Ht; simpl; [|apply keeps_store_ret].
    apply keeps_store_bind; [|intros _; apply keeps_store_emit].
    apply keeps_store_setitem. apply truthy_true_iff. exact Ht.
  - unfold handle_mode_selection. destruct (callback_query u) as [q|];
      [|apply keeps_store_ret].
    destruct (query_data q) as [data|]; [|apply keeps_store_ret].
    destruct (query_message q) as [m|]; [|apply keeps_store_ret].
    destruct (negb (truthy data)); [apply keeps_store_ret|].
    apply keeps_store_bind; [apply keeps_store_emit|]. intros _.
    unfold dict_contains, dict_getitem.
    destruct (dict_get _ ACTIVE_MODES) as [mode|]; simpl; [|apply keeps_store_emit].
    apply keeps_store_bind; [apply keeps_store_ret|]. intros mode_info.
    apply keeps_store_bind; [apply keeps_store_pop|]. intros [t|];
      [|apply keeps_store_emit].
    destruct (negb (truthy t)); [apply keeps_store_emit|].
    apply keeps_store_bind; [apply keeps_store_emit|]. intros _.
    apply keeps_store_bind; [apply keeps_store_translate|]. intros [tr|];
      [|apply keeps_store_emit].
    destruct (truthy tr); apply keeps_store_emit.
Qed.

Lemma keeps_store_run_updates (updates : list (Handler * Update)) :
  keeps_store store_wf (run_updates generate_content updates).
Proof.
  induction updates as [|[h u] rest IH]; simpl.
  - apply keeps_store_ret.
  - apply keeps_store_bind; [apply keeps_store_run_handler|]. intros _. exact IH.
Qed.

Lemma store_wf_size (w : World) (uid : Z) :
  store_wf w -> (size (user_dict w uid) <= 1)%nat.
Proof.
  intros Hw.
  assert (Hsub : dom (user_dict w uid) ⊆ ({[ORIGINAL_TEXT]} : gset pystr)).
  { intros k Hk. apply elem_of_dom in Hk. destruct Hk as [v Hv].
    destruct (Hw uid k v Hv) as [-> _]. apply elem_of_singleton. reflexivity. }
  apply subseteq_size in Hsub. rewrite size_dom, size_singleton in Hsub. exact Hsub.
Qed.

(** X13.  The store only ever holds pending texts.  If every entry of every
    user's dictionary is a non-empty text under ['original_text'], the same
    is true after any run of updates; each user then has at most one entry,
    and a pending text is never the empty string. *)
Theorem store_stays_well_formed (updates : list (Handler * Update)) (w : World) :
  store_wf w ->
  exists w' : World,
    run_updates generate_content updates w = (Ok tt, w')
    /\ store_wf w'
    /\ (forall uid : Z, (size (user_dict w' uid) <= 1)%nat)
    /\ (forall (uid : Z) (t : pystr), pending w' uid = Some t -> t <> []).
Proof.
  intros Hw. destruct (keeps_store_run_updates updates w Hw) as ([] & w' & Hr & Hw').
  exists w'. split; [exact Hr|]. split; [exact Hw'|]. split.
  - intros uid. apply store_wf_size. exact Hw'.
  - intros uid t Hp. exact (proj2 (Hw' uid ORIGINAL_TEXT t Hp)).
Qed.

(** *** The keyboard and the selection handler *)

Lemma dict_get_In {V : Type} (key : pystr) (v : V) (d : list (pystr * V)) :
  dict_get key d = Some v -> In (key, v) d.
Proof.
  induction d as [|[k x] rest IH]; simpl; [discriminate|].
  destruct (decide (k = key)) as [->|Hne].
  - intros [= ->]. left. reflexivity.
  - intros H. right. auto.
Qed.

(** The keys of the registry are distinct: every entry is the one its key
    looks up. *)
Lemma registry_entries_resolve (key : pystr) (mode : ModeInfo) :
  In (key, mode) ACTIVE_MODES -> dict_get key ACTIVE_MODES = Some mode.
Proof.
  intros H. unfold ACTIVE_MODES in H. simpl in H.
  destruct H as [H|[H|[]]]; inversion H; subst; vm_compute; reflexivity.
Qed.

(** A selection with a registered key renders the no-text error or starts
    with the working message of its mode. *)
Lemma registered_selection_renders (u : Update) (q : CallbackQuery) (m : Message)
    (mode_key : pystr) (mode : ModeInfo) (w : World) :
  selection_event u q m mode_key ->
  dict_get mode_key ACTIVE_MODES = Some mode ->
  exists (w' : World) (evs : list Event),
    on_selection u w = (Ok tt, w')
    /\ trace w' = trace w ++ evs
    /\ renders_for_label m (button_text mode) (renders evs).
Proof.
  intros Hsel Hk.
  destruct (pending w (user_id (effective_user u))) as [[|c t]|] eqn:Hp.
  - eexists. eexists. split.
    + apply (on_selection_no_text generate_content u q m mode_key mode w Hsel Hk).
      rewrite Hp. reflexivity.
    + split; [reflexivity|]. left. reflexivity.
  - destruct (translate_frame generate_content (c :: t) mode_key
                (world_at_call w (user_id (effective_user u)) q m mode))
      as (o & gw & Htr & Hgw & _).
    eexists. eexists. split.
    + apply (on_selection_outcome generate_content u q m mode_key mode (c :: t) w o gw
               Hsel Hk Hp); [discriminate | exact Htr].
    + split; [reflexivity|]. right. exists (final_render m mode o).
      destruct (final_render_is_render m mode o) as [Hfr _].
      rewrite !renders_app, Hgw, Hfr. reflexivity.
  - eexists. eexists. split.
    + apply (on_selection_no_text generate_content u q m mode_key mode w Hsel Hk).
      rewrite Hp. reflexivity.
    + split; [reflexivity|]. left. reflexivity.
Qed.

(** X16.  The keyboard and the selection handler agree.  The keyboard is one
    row with one button for each registered mode, and every registered mode
    has its button.  When a button of the keyboard is pressed, its callback
    data resolves to a registered mode with the button's own label, so the
    handler never takes the unknown-mode branch: it shows the no-text error
    or starts with the working message that names the label of the button
    pressed. *)
Theorem keyboard_buttons_resolve (b : InlineKeyboardButton) (u : Update)
    (q : CallbackQuery) (m : Message) (w : World) :
  In b keyboard_row ->
  callback_query u = Some q ->
  query_data q = Some (callback_data b) ->
  query_message q = Some m ->
  build_translation_mode_keyboard = [keyboard_row]
  /\ length keyboard_row = length ACTIVE_MODES
  /\ (forall (key : pystr) (mode : ModeInfo),
        dict_get key ACTIVE_MODES = Some mode ->
        In {| ikb_text := button_text mode; callback_data := MODE_PREFIX ++ key |}
           keyboard_row)
  /\ exists (mode_key : pystr) (mode : ModeInfo) (w' : World) (evs : list Event),
       callback_data b = MODE_PREFIX ++ mode_key
       /\ dict_get mode_key ACTIVE_MODES = Some mode
       /\ button_text mode = ikb_text b
       /\ on_selection u w = (Ok tt, w')
       /\ trace w' = trace w ++ evs
       /\ renders_for_label m (ikb_text b) (renders evs).
Proof.
  intros Hb Hq Hd Hm.
  assert (Hrow : keyboard_row
                 = map (fun kd : pystr * ModeInfo =>
                          {| ikb_text := button_text (snd kd);
                             callback_data := MODE_PREFIX ++ fst kd |})
                       ACTIVE_MODES).
  { unfold keyboard_row, build_translation_mode_keyboard.
    exact (app_nil_r _). }
  split; [unfold build_translation_mode_keyboard; rewrite Hrow; reflexivity|].
  split; [rewrite Hrow; apply length_map|]. split.
  - intros key mode Hk. rewrite Hrow. apply in_map_iff.
    exists (key, mode). split; [reflexivity | apply dict_get_In; exact Hk].
  - rewrite Hrow in Hb. apply in_map_iff in Hb.
    destruct Hb as ([key mode] & <- & Hin).
    cbn [callback_data ikb_text fst snd] in *.
    pose proof (registry_entries_resolve key mode Hin) as Hk.
    assert (Hsel : selection_event u q m key) by (repeat split; assumption).
    destruct (registered_selection_renders u q m key mode w Hsel Hk)
      as (w' & evs & Hr & Ht & Hren).
    exists key, mode, w', evs.
    split; [reflexivity|]. split; [exact Hk|]. split; [reflexivity|].
    split; [exact Hr|]. split; [exact Ht | exact Hren].
Qed.

End Further.

(** *** Start-up, case by case *)

Lemma main_cases (token key : option pystr) (ctor : pystr -> Res Client) (w : World) :
  (exists (k : pystr) (client : Client),
      truthy_opt token = true /\ key = Some k /\ k <> [] /\ ctor k = Ok client
      /\ main token key ctor w =
           (Ok true,
            {| gemini_client := Some client;
               user_data := user_data w;
               trace := trace w ++ [EvPrint (py "Бот запущен и готов к работе.")] |}))
  \/ ((truthy_opt token = false \/ truthy_opt key = false
       \/ exists k e, key = Some k /\ ctor k = Raise e)
      /\ exists msg : pystr,
           main token key ctor w = (Ok false, after_events w [EvLog CRITICAL msg])).
Proof.
  unfold main. destruct (truthy_opt token) eqn:Ht; simpl.
  - destruct key as [k|]; [|right; split; [auto | eexists; reflexivity]].
    destruct (truthy k) eqn:Hk; simpl.
    + destruct (ctor k) as [client|e] eqn:Hc.
      * left. exists k, client. apply truthy_true_iff in Hk. repeat split; auto.
      * right. split; [right; right; eauto | eexists; reflexivity].
    + right. split; [auto | eexists; reflexivity].
  - right. split; [auto | eexists; reflexivity].
Qed.


(** X15.  In a bot that [main] started on a well-formed store, after any
    run of updates, a selection with a registered key does one of two
    things, by the store alone: the user has no pending text, and the
    handler shows the no-text error and sends nothing; or the user has one,
    it is not empty, and the handler sends exactly one request, built from
    the mode's template and that text.  Either way the user has no pending
    text afterwards. *)
Theorem running_bot_selection
    (generate_content : list Event -> pystr -> pystr -> ServiceResult)
    (token key : option pystr) (ctor : pystr -> Res Client)
    (updates : list (Handler * Update)) (u : Update) (q : CallbackQuery)
    (m : Message) (mode_key : pystr) (mode : ModeInfo) (w0 w1 : World) :
  store_wf w0 ->
  main token key ctor w0 = (Ok true, w1) ->
  selection_event u q m mode_key ->
  dict_get mode_key ACTIVE_MODES = Some mode ->
  exists (w w' : World) (evs : list Event),
    run_updates generate_content updates w1 = (Ok tt, w)
    /\ handle_mode_selection generate_content u w = (Ok tt, w')
    /\ trace w' = trace w ++ evs
    /\ pending w' (user_id (effective_user u)) = None
    /\ match pending w (user_id (effective_user u)) with
       | None =>
           renders evs = [edit_event m MSG_NO_TEXT None] /\ gateway_calls evs = []
       | Some t =>
           t <> []
           /\ gateway_calls evs =
                [EvGenerateContent SELECTED_GEMINI_MODEL
                   (build_prompt (gemini_prompt mode) t)]
       end.
Proof.
  intros Hw0 Hmain Hsel Hk.
  destruct (main_cases token key ctor w0)
    as [(k & client & _ & _ & _ & _ & Hr) | [_ (msg & Hr)]];
    rewrite Hr in Hmain; [|discriminate].
  injection Hmain as Hw1.
  assert (Hwf1 : store_wf w1) by (rewrite <- Hw1; exact Hw0).
  assert (Hc1 : gemini_client w1 = Some client) by (rewrite <- Hw1; reflexivity).
  destruct (keeps_store_run_updates generate_content updates w1 Hwf1)
    as ([] & w & Hrun & Hwf).
  destruct (run_updates_keep_client generate_content updates w1) as (w2 & Hrun2 & Hc).
  assert (Hw2 : w2 = w) by congruence. subst w2. clear Hrun2. rewrite Hc1 in Hc.
  destruct (pending w (user_id (effective_user u))) as [t|] eqn:Hp.
  - assert (Hne : t <> []) by exact (proj2 (Hwf _ ORIGINAL_TEXT t Hp)).
    destruct (on_selection_ready generate_content u q m mode_key mode t client w
                Hsel Hk Hp Hne Hc) as (w' & evs & Hr' & Ht & Hcalls & Hp').
    exists w, w', evs.
    split; [exact Hrun|]. split; [exact Hr'|]. split; [exact Ht|].
    split; [exact Hp'|]. rewrite Hp. split; [exact Hne | exact Hcalls].
  - pose proof (on_selection_no_text generate_content u q m mode_key mode w Hsel Hk)
      as Hr'.
    rewrite Hp in Hr'. specialize (Hr' eq_refl).
    eexists w, _, _. split; [exact Hrun|]. split; [exact Hr'|].
    split; [reflexivity|]. split; [apply pending_after_pop|].
    rewrite Hp. split; reflexivity.
Qed.

(** ** The further properties at sample inputs *)

Lemma text_handler_ignores_empty_witness :
  no_text_content empty_update
  /\ handle_text_message empty_update pending_world = (Ok tt, pending_world)
  /\ pending (snd (handle_text_message empty_update pending_world)) 1
     = pending pending_world 1.
Proof.
  split; [exact I|].
  apply (text_handler_ignores_empty empty_update pending_world). exact I.
Defined.

Lemma selection_handler_ignores_incomplete_witness :
  incomplete_callback empty_update
  /\ handle_mode_selection service_raises empty_update pending_world
     = (Ok tt, pending_world).
Proof.
  split; [exact I|].
  apply (selection_handler_ignores_incomplete service_raises empty_update pending_world).
  exact I.
Defined.

Lemma start_command_resets_witness :
  pending pending_world 1 = Some (py "привет")
  /\ exists w' : World,
       start_command start_update pending_world = (Ok tt, w')
       /\ user_dict w' 1 = ∅
       /\ pending w' 1 = None.
Proof.
  split; [vm_compute; reflexivity|].
  destruct (start_command_resets start_update pending_world) as [H _].
  destruct (H {| chat_id := 1; message_id := 9; message_text := Some (py "/start") |}
              eq_refl) as (w' & Hr & _ & _ & Hd & Hp & _).
  exists w'. split; [exact Hr|]. split; [exact Hd | exact Hp].
Defined.

Lemma gateway_unready_sends_nothing_witness :
  gemini_client fresh_world = None
  /\ exists (w' : World) (level : LogLevel) (msg : pystr),
       translate_text_with_gemini service_raises (py "привет") to_slang fresh_world
         = (Ok None, w')
       /\ trace w' = trace fresh_world ++ [EvLog level msg]
       /\ gateway_calls [EvLog level msg] = []
       /\ user_data w' = user_data fresh_world
       /\ gemini_client w' = gemini_client fresh_world.
Proof.
  split; [reflexivity|].
  apply (gateway_unready_sends_nothing service_raises (py "привет") to_slang fresh_world).
  left. reflexivity.
Defined.

Lemma gateway_result_is_stripped_witness :
  fst (translate_text_with_gemini (service_returns slang_response) (py "привет")
         to_slang ready_world) = Ok (Some (py "йоу"))
  /\ exists (mode : ModeInfo) (resp : Response) (t : pystr),
       dict_get to_slang ACTIVE_MODES = Some mode
       /\ service_returns slang_response (trace ready_world) SELECTED_GEMINI_MODEL
            (build_prompt (gemini_prompt mode) (py "привет")) = SvcReturn (Some resp)
       /\ response_text resp = Some t
       /\ t <> []
       /\ py "йоу" = strip t
       /\ trimmed t (py "йоу")
       /\ strip (py "йоу") = py "йоу"
       /\ (py "йоу" = [] <-> forallb isspace t = true).
Proof.
  split; [vm_compute; reflexivity|].
  apply (gateway_result_is_stripped (service_returns slang_response) (py "привет")
           to_slang (py "йоу") ready_world).
  vm_compute. reflexivity.
Defined.

Lemma successful_selection_trace_witness :
  pending pending_world 1 = Some (py "привет")
  /\ forallb isspace (py " йоу ") = false
  /\ exists w' : World,
       handle_mode_selection (service_returns slang_response)
         (selection_update to_slang) pending_world = (Ok tt, w')
       /\ trace w' =
            trace pending_world
            ++ [EvAnswer 5;
                edit_event keyboard_message
                  (working_message (button_text to_slang_info)) None;
                EvGenerateContent SELECTED_GEMINI_MODEL
                  (build_prompt (gemini_prompt to_slang_info) (py "привет"));
                edit_event keyboard_message (result_message (strip (py " йоу ")))
                  (Some (py "Markdown"))]
       /\ occurs_in (strip (py " йоу ")) (result_message (strip (py " йоу ")))
       /\ strip (py " йоу ") <> []
       /\ pending w' 1 = None.
Proof.
  split; [vm_compute; reflexivity|]. split; [vm_compute; reflexivity|].
  apply (successful_selection_trace (service_returns slang_response)
           (selection_update to_slang) (sample_query to_slang) keyboard_message
           to_slang to_slang_info (py "привет") (py " йоу ") sample_client
           slang_response pending_world).
  - repeat split; reflexivity.
  - vm_compute; reflexivity.
  - vm_compute; reflexivity.
  - vm_compute; discriminate.
  - reflexivity.
  - reflexivity.
  - reflexivity.
  - vm_compute; reflexivity.
Defined.

Lemma reset_then_selection_finds_no_text_witness :
  exists (w1 w1' w2 w2' w3 : World) (evs : list Event),
    handle_text_message (text_update (py "привет")) ready_world = (Ok tt, w1)
    /\ pending w1 1 = Some (py "привет")
    /\ run_updates service_raises [(OnText, bob_text)] w1 = (Ok tt, w1')
    /\ start_command start_update w1' = (Ok tt, w2)
    /\ run_updates service_raises [] w2 = (Ok tt, w2')
    /\ handle_mode_selection service_raises (selection_update to_slang) w2' = (Ok tt, w3)
    /\ trace w3 = trace w2' ++ evs
    /\ renders evs = [edit_event keyboard_message MSG_NO_TEXT None]
    /\ gateway_calls evs = [].
Proof.
  apply (reset_then_selection_finds_no_text service_raises
           (text_update (py "привет")) start_update (selection_update to_slang)
           (text_message (py "привет"))
           {| chat_id := 1; message_id := 9; message_text := Some (py "/start") |}
           keyboard_message (sample_query to_slang) (py "привет") to_slang
           to_slang_info [(OnText, bob_text)] [] ready_world).
  - repeat split; try reflexivity. vm_compute. discriminate.
  - reflexivity.
  - repeat split; reflexivity.
  - reflexivity.
  - reflexivity.
  - repeat constructor. vm_compute. discriminate.
  - constructor.
  - vm_compute; reflexivity.
Defined.

Lemma unknown_key_keeps_text_for_next_witness :
  exists (w1 w2 : World) (evs1 evs2 : list Event),
    handle_mode_selection service_raises (selection_update (py "zzz")) pending_world
      = (Ok tt, w1)
    /\ trace w1 = trace pending_world ++ evs1
    /\ gateway_calls evs1 = []
    /\ pending w1 1 = Some (py "привет")
    /\ handle_mode_selection service_raises (selection_update to_slang) w1 = (Ok tt, w2)
    /\ trace w2 = trace w1 ++ evs2
    /\ gateway_calls evs2 =
         [EvGenerateContent SELECTED_GEMINI_MODEL
            (build_prompt (gemini_prompt to_slang_info) (py "привет"))]
    /\ pending w2 1 = None.
Proof.
  apply (unknown_key_keeps_text_for_next service_raises
           (selection_update (py "zzz")) (selection_update to_slang)
           (sample_query (py "zzz")) (sample_query to_slang)
           keyboard_message keyboard_message (py "zzz") to_slang (py "привет")
           to_slang_info sample_client pending_world).
  - repeat split; reflexivity.
  - vm_compute; reflexivity.
  - repeat split; reflexivity.
  - vm_compute; reflexivity.
  - reflexivity.
  - vm_compute; reflexivity.
  - vm_compute; discriminate.
  - reflexivity.
Defined.

Lemma pending_text_is_used_once_witness :
  exists (w1 w1' w2 : World) (evs1 evs2 : list Event),
    handle_mode_selection service_raises (selection_update to_slang) pending_world
      = (Ok tt, w1)
    /\ trace w1 = trace pending_world ++ evs1
    /\ gateway_calls evs1 =
         [EvGenerateContent SELECTED_GEMINI_MODEL
            (build_prompt (gemini_prompt to_slang_info) (py "привет"))]
    /\ run_updates service_raises [(OnText, bob_text)] w1 = (Ok tt, w1')
    /\ handle_mode_selection service_raises (selection_update to_slang) w1' = (Ok tt, w2)
    /\ trace w2 = trace w1' ++ evs2
    /\ renders evs2 = [edit_event keyboard_message MSG_NO_TEXT None]
    /\ gateway_calls evs2 = [].
Proof.
  apply (pending_text_is_used_once service_raises
           (selection_update to_slang) (selection_update to_slang)
           (sample_query to_slang) (sample_query to_slang)
           keyboard_message keyboard_message to_slang to_slang (py "привет")
           to_slang_info to_slang_info sample_client [(OnText, bob_text)]
           pending_world).
  - repeat split; reflexivity.
  - vm_compute; reflexivity.
  - repeat split; reflexivity.
  - vm_compute; reflexivity.
  - reflexivity.
  - repeat constructor. vm_compute. discriminate.
  - vm_compute; reflexivity.
  - vm_compute; discriminate.
  - reflexivity.
Defined.


Lemma store_wf_ready_world : store_wf ready_world.
Proof.
  intros uid k v. unfold user_dict, ready_world. simpl.
  rewrite lookup_empty. simpl. rewrite lookup_empty. discriminate.
Qed.

Lemma store_stays_well_formed_witness :
  store_wf ready_world
  /\ exists w' : World,
       run_updates (service_returns slang_response)
         [(OnText, text_update (py "привет")); (OnText, bob_text);
          (OnSelection, selection_update to_slang)]
         ready_world = (Ok tt, w')
       /\ store_wf w'
       /\ (forall uid : Z, (size (user_dict w' uid) <= 1)%nat)
       /\ (forall (uid : Z) (t : pystr), pending w' uid = Some t -> t <> []).
Proof.
  split; [exact store_wf_ready_world|].
  apply (store_stays_well_formed (service_returns slang_response)
           [(OnText, text_update (py "привет")); (OnText, bob_text);
            (OnSelection, selection_update to_slang)]
           ready_world).
  exact store_wf_ready_world.
Defined.

Lemma store_wf_fresh_world : store_wf fresh_world.
Proof.
  intros uid k v. unfold user_dict, fresh_world. simpl.
  rewrite lookup_empty. simpl. rewrite lookup_empty. discriminate.
Qed.


Lemma running_bot_selection_witness :
  store_wf fresh_world
  /\ exists (w w' : World) (evs : list Event),
       run_updates service_raises [(OnText, text_update (py "привет"))]
         {| gemini_client := Some sample_client;
            user_data := ∅;
            trace := [EvPrint (py "Бот запущен и готов к работе.")] |}
         = (Ok tt, w)
       /\ handle_mode_selection service_raises (selection_update to_slang) w
          = (Ok tt, w')
       /\ trace w' = trace w ++ evs
       /\ pending w' 1 = None
       /\ match pending w 1 with
          | None =>
              renders evs = [edit_event keyboard_message MSG_NO_TEXT None]
              /\ gateway_calls evs = []
          | Some t =>
              t <> []
              /\ gateway_calls evs =
                   [EvGenerateContent SELECTED_GEMINI_MODEL
                      (build_prompt (gemini_prompt to_slang_info) t)]
          end.
Proof.
  split; [exact store_wf_fresh_world|].
  apply (running_bot_selection service_raises
           (Some (py "token")) (Some (py "secret")) ok_constructor
           [(OnText, text_update (py "привет"))]
           (selection_update to_slang) (sample_query to_slang) keyboard_message
           to_slang to_slang_info fresh_world).
  - exact store_wf_fresh_world.
  - vm_compute; reflexivity.
  - repeat split; reflexivity.
  - vm_compute; reflexivity.
Defined.

Lemma keyboard_buttons_resolve_witness :
  In to_slang_button keyboard_row
  /\ exists (mode_key : pystr) (mode : ModeInfo) (w' : World) (evs : list Event),
       callback_data to_slang_button = MODE_PREFIX ++ mode_key
       /\ dict_get mode_key ACTIVE_MODES = Some mode
       /\ button_text mode = ikb_text to_slang_button
       /\ handle_mode_selection service_raises (selection_update to_slang) pending_world
          = (Ok tt, w')
       /\ trace w' = trace pending_world ++ evs
       /\ renders_for_label keyboard_message (ikb_text to_slang_button) (renders evs).
Proof.
  assert (Hin : In to_slang_button keyboard_row).
  { right. left. vm_compute. reflexivity. }
  split; [exact Hin|].
  destruct (keyboard_buttons_resolve service_raises to_slang_button
              (selection_update to_slang) (sample_query to_slang) keyboard_message
              pending_world Hin eq_refl eq_refl eq_refl) as (_ & _ & _ & H).
  exact H.
Defined.
